(** * Simulated services and the integration-test harness

    A shallow embedding of [src/main.go] (the simulated external service)
    and of the first compilation unit of [tests/integration_test.go] (the
    scenario runner and the category-gated tests), with the properties the
    specification states about them.

    Conventions.
    - A Go [float32] that is neither NaN nor infinite is modelled by its
      exact rational value in [Q]; the only float operation of the program
      is the comparison [<], which on such values is the order of the
      rationals.
    - [rand.Float32] reads the process-global generator.  The generator is
      a stream [Float32 : nat -> Q]; the run-time state counts the draws
      made so far.  The documented range of [rand.Float32] is the
      half-open interval from 0 to 1, stated as a hypothesis where needed.
    - [time.Duration] is a number of nanoseconds in [Z]; [time.Sleep]
      advances a clock and returns at once for a non-positive duration.
    - A Go [error] is [None] (nil) or [Some msg].
    - Methods on a pointer receiver run in a state monad whose state holds
      the receiver and the run-time state. *)

From Stdlib Require Import QArith ZArith String List.
From stdpp Require Import gmap strings list fin_maps pretty.

Set Warnings "-register-all".
Local Open Scope string_scope.
Local Open Scope Z_scope.

(** ** Comparison of finite floats *)

Definition Qlt_bool (x y : Q) : bool := negb (Qle_bool y x).

(** The line feed written by [\n] in a Go format string. *)
Definition LF : string := String (Ascii.ascii_of_nat 10) EmptyString.

(** Go's [error] values built by [fmt.Errorf]. *)
Definition error : Type := option string.

(** ** A state monad for methods and test functions *)

Definition State (S A : Type) : Type := S → A * S.

Definition ret {S A} (a : A) : State S A := λ s, (a, s).

Definition bind {S A B} (c : State S A) (k : A → State S B) : State S B :=
  λ s, let '(a, s') := c s in k a s'.

Definition gets {S A} (f : S → A) : State S A := λ s, (f s, s).

Definition modify {S} (f : S → S) : State S unit := λ s, (tt, f s).

Declare Scope go_scope.
Delimit Scope go_scope with go.
Notation "x <- c ;; k" := (bind c (λ x, k))
  (at level 100, c at next level, right associativity) : go_scope.
Notation "c ;;; k" := (bind c (λ _, k))
  (at level 100, right associativity) : go_scope.
Local Open Scope go_scope.

(** * [src/main.go] *)

Module Main.

(** [type MockService struct] *)
Record MockService := {
  name : string;
  responseTime : Z;
  failureRate : Q;
  data : gmap string string
}.

(** What a method can observe besides its receiver: the number of
    [rand.Float32] calls made so far, the time slept, and standard
    output. *)
Record Runtime := {
  draws : nat;
  elapsed : Z;
  stdout : list string
}.

Definition M (A : Type) : Type := State (MockService * Runtime) A.

(** [func NewMockService] *)
Definition NewMockService (n : string) (rt : Z) (fr : Q) : MockService :=
  {| name := n; responseTime := rt; failureRate := fr; data := ∅ |}.

Definition this : M MockService := gets fst.

Definition time_Sleep (d : Z) : M unit :=
  modify (λ '(m, r),
    (m, {| draws := draws r; elapsed := elapsed r + Z.max 0 d;
           stdout := stdout r |})).

Definition fmt_Printf (s : string) : M unit :=
  modify (λ '(m, r),
    (m, {| draws := draws r; elapsed := elapsed r;
           stdout := stdout r ++ [s] |})).

(** [m.data[key] = value] *)
Definition store (key value : string) : M unit :=
  modify (λ '(m, r),
    ({| name := name m; responseTime := responseTime m;
        failureRate := failureRate m; data := <[key := value]> (data m) |},
     r)).

Section Service.

(** The stream of the process-global random generator. *)
Variable Float32 : nat → Q.

(** The order in which [for k := range m.data] visits the keys; Go leaves
    it unspecified, each key is visited once. *)
Variable range_keys : gmap string string → list string.

Definition rand_Float32 : M Q :=
  λ '(m, r),
    (Float32 (draws r),
     (m, {| draws := S (draws r); elapsed := elapsed r;
            stdout := stdout r |})).

(** [func (m *MockService) shouldFail] *)
Definition shouldFail : M bool :=
  x <- rand_Float32 ;;
  m <- this ;;
  ret (Qlt_bool x (failureRate m)).

(** [func (m *MockService) Connect] *)
Definition Connect : M error :=
  m <- this ;;
  time_Sleep (responseTime m) ;;;
  b <- shouldFail ;;
  if b then ret (Some ("failed to connect to " +:+ name m))
  else
    fmt_Printf ("✓ Connected to " +:+ name m +:+ LF) ;;;
    ret None.

(** [func (m *MockService) Ping] *)
Definition Ping : M error :=
  m <- this ;;
  time_Sleep (responseTime m ÷ 2) ;;;
  b <- shouldFail ;;
  if b then ret (Some (name m +:+ " is not responding"))
  else ret None.

(** [func (m *MockService) GetData] *)
Definition GetData (key : string) : M (string * error) :=
  m <- this ;;
  time_Sleep (responseTime m) ;;;
  b <- shouldFail ;;
  if b then ret ("", Some ("failed to get data from " +:+ name m))
  else
    match data m !! key with
    | Some val => ret (val, None)
    | None => ret ("", Some ("key " +:+ key +:+ " not found"))
    end.

(** [func (m *MockService) PutData] *)
Definition PutData (key value : string) : M error :=
  m <- this ;;
  time_Sleep (responseTime m) ;;;
  b <- shouldFail ;;
  if b then ret (Some ("failed to put data to " +:+ name m))
  else
    store key value ;;;
    ret None.

(** [func (m *MockService) ListKeys]; a nil slice is the empty list. *)
Definition ListKeys : M (list string * error) :=
  m <- this ;;
  time_Sleep (responseTime m) ;;;
  b <- shouldFail ;;
  if b then ret ([], Some ("failed to list keys from " +:+ name m))
  else ret (range_keys (data m), None).

End Service.

(** [type ServiceConfig struct] *)
Record ServiceConfig := {
  Name : string;
  Type_ : string;
  ResponseTime : Z;
  FailureRate : Q
}.

(** [os.Getenv]: the value of the variable, empty when it is not set. *)
Definition os_Getenv (env : gmap string string) (key : string) : string :=
  default "" (env !! key).

Definition Millisecond : Z := 1000000.

(** [func LoadServiceConfig]; the failure rates are the [float32] values
    nearest to 0.01, 0.02 and 0.05. *)
Definition LoadServiceConfig (env : gmap string string) : list ServiceConfig :=
  [ {| Name := "S3-like Storage"; Type_ := os_Getenv env "STORAGE_TYPE";
       ResponseTime := 100 * Millisecond;
       FailureRate := (5368709 # 536870912)%Q |};
    {| Name := "Database"; Type_ := os_Getenv env "DB_TYPE";
       ResponseTime := 50 * Millisecond;
       FailureRate := (5368709 # 268435456)%Q |};
    {| Name := "External API"; Type_ := os_Getenv env "API_TYPE";
       ResponseTime := 200 * Millisecond;
       FailureRate := (13421773 # 268435456)%Q |} ].

(** The body of the initialisation loop of [main]: the label printed for
    a configuration, [cfg.Type] with the empty string replaced. *)
Definition label (cfg : ServiceConfig) : string :=
  if decide (Type_ cfg = "") then "mock" else Type_ cfg.

Definition init_line (cfg : ServiceConfig) : string :=
  "Initializing " +:+ Name cfg +:+ " service (" +:+ label cfg +:+ ")..." +:+ LF.

(** The [// Initialize services] loop of [main]: the lines it prints and
    the services it creates. *)
Definition init_services (env : gmap string string)
    : list string * list MockService :=
  let configs := LoadServiceConfig env in
  (init_line <$> configs,
   (λ cfg, NewMockService (Name cfg) (ResponseTime cfg) (FailureRate cfg))
     <$> configs).

End Main.

(** * [tests/integration_test.go], simulated suite *)

Module Tests.

(** The package-level flag variables. *)
Record Flags := {
  runStorageTests : bool;
  runDBTests : bool;
  runAPITests : bool;
  simulateFailure : bool;
  verbose : bool
}.

(** [type MockIntegrationTest struct] *)
Record MockIntegrationTest := {
  name : string;
  duration : Z;
  failureRate : Q;
  operations : list string
}.

(** The part of [testing.T] the tests use: the test's name, the lines it
    logged, whether it was marked failed or skipped, and its finished
    subtests. *)
Inductive T := mkT {
  tname : string;
  output : list string;
  failed : bool;
  skipped : bool;
  sub : list T
}.

(** The state of the test process outside the running test. *)
Record Proc := {
  flags : Flags;
  environ : gmap string string;
  draws : nat;
  elapsed : Z
}.

Definition M (A : Type) : Type := State (T * Proc) A.

Definition Millisecond : Z := 1000000.

Definition flag {A} (f : Flags → A) : M A := gets (λ '(_, p), f (flags p)).

Definition os_Getenv (key : string) : M string :=
  gets (λ '(_, p), default "" (environ p !! key)).

Definition time_Sleep (d : Z) : M unit :=
  modify (λ '(t, p),
    (t, {| flags := flags p; environ := environ p; draws := draws p;
           elapsed := elapsed p + Z.max 0 d |})).

(** [t.Log] and [t.Logf] with the message already formatted. *)
Definition t_Log (s : string) : M unit :=
  modify (λ '(t, p),
    (mkT (tname t) (output t ++ [s]) (failed t) (skipped t) (sub t), p)).

(** [t.Errorf]: log the message and mark the test failed. *)
Definition t_Errorf (s : string) : M unit :=
  modify (λ '(t, p),
    (mkT (tname t) (output t ++ [s]) true (skipped t) (sub t), p)).

(** [t.Skip]: log the message and mark the test skipped.  The call also
    ends the test function; the callers below have nothing after it. *)
Definition t_Skip (s : string) : M unit :=
  modify (λ '(t, p),
    (mkT (tname t) (output t ++ [s]) (failed t) true (sub t), p)).

(** [t.Run]: run [f] as the subtest [name] on a fresh [testing.T], record
    the finished subtest, and mark the parent failed when the subtest
    failed. *)
Definition t_Run (name : string) (f : M unit) : M unit :=
  λ '(t, p),
    let child := mkT (tname t +:+ "/" +:+ name) [] false false [] in
    let '(_, (child', p')) := f (child, p) in
    (tt, (mkT (tname t) (output t) (failed t || failed child') (skipped t)
              (sub t ++ [child']), p')).

Definition set_categories (s d a : bool) : M unit :=
  modify (λ '(t, p),
    (t, {| flags := {| runStorageTests := s; runDBTests := d;
                       runAPITests := a;
                       simulateFailure := simulateFailure (flags p);
                       verbose := verbose (flags p) |};
           environ := environ p; draws := draws p;
           elapsed := elapsed p |})).

(** The verb [%v] applied to a boolean. *)
Definition fmt_bool (b : bool) : string := if b then "true" else "false".

(** The verb [%d] applied to a non-negative integer. *)
Definition fmt_int (n : nat) : string := pretty n.

Definition when (b : bool) (c : M unit) : M unit := if b then c else ret tt.

(** [func NewMockIntegrationTest] *)
Definition NewMockIntegrationTest (n : string) (d : Z) (fr : Q)
    : MockIntegrationTest :=
  {| name := n; duration := d; failureRate := fr;
     operations :=
       [ "Connecting to service"; "Authenticating"; "Creating test data";
         "Verifying data integrity"; "Performing read operations";
         "Performing write operations"; "Testing error handling";
         "Cleaning up test data" ] |}.

(** [mock.operations = ops] *)
Definition set_operations (m : MockIntegrationTest) (ops : list string)
    : MockIntegrationTest :=
  {| name := name m; duration := duration m; failureRate := failureRate m;
     operations := ops |}.

Section Suite.

Variable Float32 : nat → Q.

Definition rand_Float32 : M Q :=
  λ '(t, p),
    (Float32 (draws p),
     (t, {| flags := flags p; environ := environ p; draws := S (draws p);
            elapsed := elapsed p |})).

(** The condition [*simulateFailure && rand.Float32() < m.failureRate];
    the generator is read only when the flag is set. *)
Definition inject (m : MockIntegrationTest) : M bool :=
  sf <- flag simulateFailure ;;
  if sf then x <- rand_Float32 ;; ret (Qlt_bool x (failureRate m))
  else ret false.

(** The lines [Run] logs. *)
Definition start_line (m : MockIntegrationTest) : string :=
  "Starting " +:+ name m +:+ " integration test".

Definition step_line (m : MockIntegrationTest) (i : nat) (op : string)
    : string :=
  "  [" +:+ fmt_int (i + 1) +:+ "/" +:+ fmt_int (length (operations m))
  +:+ "] " +:+ op +:+ "...".

Definition failed_line (op : string) : string :=
  "  ✗ " +:+ op +:+ " failed: simulated failure".

Definition completed_line (op : string) : string :=
  "  ✓ " +:+ op +:+ " completed".

Definition passed_line (m : MockIntegrationTest) : string :=
  "✅ " +:+ name m +:+ " integration test passed".

(** The time slept before each step. *)
Definition step_time (m : MockIntegrationTest) : Z :=
  duration m ÷ Z.of_nat (length (operations m)).

(** The [for i, op := range m.operations] loop of [Run], from index [i]
    with [ops] left to visit; the result tells whether the loop left the
    function through [return]. *)
Fixpoint Run_loop (m : MockIntegrationTest) (i : nat) (ops : list string)
    : M bool :=
  match ops with
  | [] => ret false
  | op :: rest =>
      v <- flag verbose ;;
      when v (t_Log (step_line m i op)) ;;;
      time_Sleep (step_time m) ;;;
      hit <- inject m ;;
      if hit then
        t_Errorf (failed_line op) ;;;
        ret true
      else
        v' <- flag verbose ;;
        when v' (t_Log (completed_line op)) ;;;
        Run_loop m (S i) rest
  end.

(** [func (m *MockIntegrationTest) Run] *)
Definition Run (m : MockIntegrationTest) : M unit :=
  t_Log (start_line m) ;;;
  returned <- Run_loop m 0 (operations m) ;;
  if returned then ret tt else t_Log (passed_line m).

(** The float32 values nearest to the rates written in the source. *)
Definition f0_01 : Q := 5368709 # 536870912.
Definition f0_02 : Q := 5368709 # 268435456.
Definition f0_03 : Q := 16106127 # 536870912.
Definition f0_04 : Q := 5368709 # 134217728.
Definition f0_05 : Q := 13421773 # 268435456.

Definition scenario (n : string) (ms : Z) (fr : Q) (ops : list string)
    : M unit :=
  Run (set_operations (NewMockIntegrationTest n (ms * Millisecond) fr) ops).

Definition testStorageUpload : M unit :=
  scenario "Storage Upload" 500 f0_05
    [ "Connecting to storage service"; "Generating test file";
      "Uploading file"; "Verifying upload"; "Checking file integrity" ].

Definition testStorageDownload : M unit :=
  scenario "Storage Download" 400 f0_03
    [ "Connecting to storage service"; "Locating file"; "Downloading file";
      "Verifying download"; "Checking file integrity" ].

Definition testStorageList : M unit :=
  scenario "Storage List" 300 f0_02
    [ "Connecting to storage service"; "Listing objects";
      "Parsing metadata"; "Sorting results" ].

Definition testStorageDelete : M unit :=
  scenario "Storage Delete" 200 f0_01
    [ "Connecting to storage service"; "Locating file"; "Deleting file";
      "Verifying deletion" ].

Definition testStorageMetadata : M unit :=
  scenario "Storage Metadata" 250 f0_02
    [ "Connecting to storage service"; "Retrieving metadata";
      "Updating metadata"; "Verifying changes" ].

Definition testDBConnection : M unit :=
  scenario "Database Connection" 300 f0_02
    [ "Establishing connection"; "Authenticating"; "Testing connection";
      "Checking database version" ].

Definition testDBMigration : M unit :=
  scenario "Database Migration" 600 f0_03
    [ "Loading migration files"; "Checking current version";
      "Applying migrations"; "Verifying schema" ].

Definition testDBCRUD : M unit :=
  scenario "Database CRUD" 800 f0_04
    [ "Creating records"; "Reading records"; "Updating records";
      "Deleting records"; "Verifying operations" ].

Definition testDBTransaction : M unit :=
  scenario "Database Transaction" 400 f0_02
    [ "Beginning transaction"; "Executing operations"; "Testing rollback";
      "Committing transaction" ].

Definition testDBPerformance : M unit :=
  scenario "Database Performance" 1000 f0_05
    [ "Running query benchmarks"; "Testing connection pool";
      "Measuring latency"; "Analyzing query plans";
      "Generating performance report" ].

Definition testAPIAuth : M unit :=
  scenario "API Authentication" 400 f0_03
    [ "Requesting auth token"; "Validating token"; "Testing token refresh";
      "Testing token expiry" ].

Definition testAPIGet : M unit :=
  scenario "API GET" 300 f0_02
    [ "Making GET request"; "Parsing response"; "Validating data" ].

Definition testAPIPost : M unit :=
  scenario "API POST" 400 f0_03
    [ "Preparing payload"; "Making POST request"; "Validating response";
      "Verifying creation" ].

Definition testAPIPut : M unit :=
  scenario "API PUT" 350 f0_02
    [ "Preparing update"; "Making PUT request"; "Validating response";
      "Verifying update" ].

Definition testAPIDelete : M unit :=
  scenario "API DELETE" 300 f0_02
    [ "Making DELETE request"; "Validating response"; "Verifying deletion" ].

Definition testAPIRateLimit : M unit :=
  scenario "API Rate Limiting" 600 f0_04
    [ "Testing rate limits"; "Checking headers"; "Testing backoff";
      "Verifying throttling" ].

(** The label a category test logs: the environment variable, or the
    category's default when the variable is empty or not set. *)
Definition type_label (var dflt : string) : M string :=
  v <- os_Getenv var ;;
  ret (if decide (v = "") then dflt else v).

(** [for _, test := range tests { t.Run(test.name, ...) }] *)
Fixpoint run_subtests (tests : list (string * M unit)) : M unit :=
  match tests with
  | [] => ret tt
  | (n, f) :: rest => t_Run n f ;;; run_subtests rest
  end.

Definition storage_tests : list (string * M unit) :=
  [ ("Upload", testStorageUpload); ("Download", testStorageDownload);
    ("List", testStorageList); ("Delete", testStorageDelete);
    ("Metadata", testStorageMetadata) ].

Definition database_tests : list (string * M unit) :=
  [ ("Connection", testDBConnection); ("Migration", testDBMigration);
    ("CRUD", testDBCRUD); ("Transaction", testDBTransaction);
    ("Performance", testDBPerformance) ].

Definition api_tests : list (string * M unit) :=
  [ ("Authentication", testAPIAuth); ("GET", testAPIGet);
    ("POST", testAPIPost); ("PUT", testAPIPut); ("DELETE", testAPIDelete);
    ("RateLimit", testAPIRateLimit) ].

(** [func TestStorageIntegration] *)
Definition TestStorageIntegration : M unit :=
  on <- flag runStorageTests ;;
  if negb on then t_Skip "Storage tests not enabled (use -storage flag)"
  else
    storageType <- type_label "STORAGE_TYPE" "mock-s3" ;;
    t_Log ("Running storage integration tests (type: " +:+ storageType
           +:+ ")") ;;;
    run_subtests storage_tests.

(** [func TestDatabaseIntegration] *)
Definition TestDatabaseIntegration : M unit :=
  on <- flag runDBTests ;;
  if negb on then t_Skip "Database tests not enabled (use -database flag)"
  else
    dbType <- type_label "DB_TYPE" "mock-postgres" ;;
    t_Log ("Running database integration tests (type: " +:+ dbType
           +:+ ")") ;;;
    run_subtests database_tests.

(** [func TestAPIIntegration] *)
Definition TestAPIIntegration : M unit :=
  on <- flag runAPITests ;;
  if negb on then t_Skip "API tests not enabled (use -api flag)"
  else
    apiType <- type_label "API_TYPE" "mock-rest" ;;
    t_Log ("Running API integration tests (type: " +:+ apiType +:+ ")") ;;;
    run_subtests api_tests.

(** [func TestIntegrationSuite] *)
Definition TestIntegrationSuite : M unit :=
  s <- flag runStorageTests ;;
  d <- flag runDBTests ;;
  a <- flag runAPITests ;;
  when (negb s && negb d && negb a)
    (t_Log "No specific integration tests requested, running full suite" ;;;
     set_categories true true true) ;;;
  t_Log "Integration Test Configuration:" ;;;
  s <- flag runStorageTests ;;
  t_Log ("  Storage Tests: " +:+ fmt_bool s) ;;;
  d <- flag runDBTests ;;
  t_Log ("  Database Tests: " +:+ fmt_bool d) ;;;
  a <- flag runAPITests ;;
  t_Log ("  API Tests: " +:+ fmt_bool a) ;;;
  f <- flag simulateFailure ;;
  t_Log ("  Simulate Failures: " +:+ fmt_bool f) ;;;
  v <- flag verbose ;;
  t_Log ("  Verbose: " +:+ fmt_bool v).

(** The test functions of the file, in the order of the source; the
    [testing] package runs them one after another in this order, each on
    a fresh [testing.T], over the same package-level variables. *)
Definition package_tests : list (string * M unit) :=
  [ ("TestStorageIntegration", TestStorageIntegration);
    ("TestDatabaseIntegration", TestDatabaseIntegration);
    ("TestAPIIntegration", TestAPIIntegration);
    ("TestIntegrationSuite", TestIntegrationSuite) ].

Fixpoint run_tests (tests : list (string * M unit)) (p : Proc)
    : list T * Proc :=
  match tests with
  | [] => ([], p)
  | (n, f) :: rest =>
      let '(_, (t, p')) := f (mkT n [] false false [], p) in
      let '(ts, p'') := run_tests rest p' in
      (t :: ts, p'')
  end.

(** [go test -tags=integration ./tests] with the given flags. *)
Definition go_test (fl : Flags) (env : gmap string string) : list T * Proc :=
  run_tests package_tests
    {| flags := fl; environ := env; draws := 0%nat; elapsed := 0 |}.

(** The scenarios a run executed: the subtests of its tests, by name. *)
Definition executed (r : list T * Proc) : list string :=
  t ← r.1; tname <$> sub t.

End Suite.

End Tests.

(** * [src/main.go], the program *)

Module Program.

Import Main.

(** [fmt.Println] and [fmt.Printf] called outside a method. *)
Definition print (s : string) (r : Runtime) : Runtime :=
  {| draws := draws r; elapsed := elapsed r; stdout := stdout r ++ [s] |}.

Section Program.

Variable Float32 : nat → Q.
Variable range_keys : gmap string string → list string.

(** [time.Now().Unix()] as read in each iteration of the test loop. *)
Variable Unix : nat → Z.

Definition testKey (now : Z) : string := "test-key-" +:+ pretty now.

Definition testValue (cfg : ServiceConfig) : string :=
  "test-value-" +:+ Name cfg.

(** The body of the [// Test each service] loop of [main], run on the
    service of the iteration.  Each [log.Printf] is followed by
    [continue], so an iteration logs at most one line: the result is that
    line, or [None] when the iteration ran to its end. *)
Definition test_service (cfg : ServiceConfig) (now : Z) : M (option string) :=
  fmt_Printf (LF +:+ "Testing " +:+ Name cfg +:+ ":" +:+ LF) ;;;
  err <- Connect Float32 ;;
  match err with
  | Some e => ret (Some ("  ✗ Connection failed: " +:+ e))
  | None =>
  err <- Ping Float32 ;;
  match err with
  | Some e => ret (Some ("  ✗ Ping failed: " +:+ e))
  | None =>
  fmt_Printf ("  ✓ Ping successful" +:+ LF) ;;;
  err <- PutData Float32 (testKey now) (testValue cfg) ;;
  match err with
  | Some e => ret (Some ("  ✗ Put data failed: " +:+ e))
  | None =>
  fmt_Printf ("  ✓ Data stored successfully" +:+ LF) ;;;
  res <- GetData Float32 (testKey now) ;;
  match res.2 with
  | Some e => ret (Some ("  ✗ Get data failed: " +:+ e))
  | None =>
  if decide (res.1 ≠ testValue cfg) then
    ret (Some ("  ✗ Data mismatch: expected " +:+ testValue cfg +:+ ", got "
               +:+ res.1))
  else
  fmt_Printf ("  ✓ Data retrieved successfully" +:+ LF) ;;;
  res <- ListKeys Float32 range_keys ;;
  match res.2 with
  | Some e => ret (Some ("  ✗ List keys failed: " +:+ e))
  | None =>
  fmt_Printf ("  ✓ Listed " +:+ pretty (length res.1) +:+ " keys" +:+ LF) ;;;
  ret None
  end end end end end.

(** The test loop over [services], with [configs[i]] beside each: the
    services as the loop leaves them, the lines logged, and the run-time
    state. *)
Fixpoint test_services (i : nat) (l : list (ServiceConfig * MockService))
    (r : Runtime) : list MockService * list string * Runtime :=
  match l with
  | [] => ([], [], r)
  | (cfg, svc) :: rest =>
      let '(lg, (svc', r')) := test_service cfg (Unix i) (svc, r) in
      let '(svcs, lgs, r'') := test_services (S i) rest r' in
      (svc' :: svcs, (option_list lg ++ lgs)%list, r'')
  end.

(** [func main] *)
Definition main (env : gmap string string) (r : Runtime)
    : list MockService * list string * Runtime :=
  let r := print ("=== Integration Testing Demo ===" +:+ LF) r in
  let r :=
    print ("This simulates integration with external services" +:+ LF) r in
  let r := print LF r in
  let configs := LoadServiceConfig env in
  let '(lines, services) := init_services env in
  let r := foldl (λ r s, print s r) r lines in
  let r := print (LF +:+ "--- Running Integration Tests ---" +:+ LF) r in
  let '(svcs, lg, r) := test_services 0 (zip configs services) r in
  (svcs, lg, print (LF +:+ "=== Integration Tests Complete ===" +:+ LF) r).

End Program.

End Program.

(** * Vocabulary of the properties *)

(** The documented range of [rand.Float32]. *)
Definition unit_interval (Float32 : nat → Q) : Prop :=
  ∀ n, (0 <= Float32 n)%Q ∧ (Float32 n < 1)%Q.

(** Go visits every key of a map once, in an order it does not fix. *)
Definition visits_each_key_once
    (range_keys : gmap string string → list string) : Prop :=
  ∀ d, range_keys d ≡ₚ (map_to_list d).*1.

(** The failure decision of a service call made in run-time state [r]. *)
Definition hit (Float32 : nat → Q) (m : Main.MockService) (r : Main.Runtime)
    : bool :=
  Qlt_bool (Float32 (Main.draws r)) (Main.failureRate m).

(** The run-time state after one draw and a sleep of [d]. *)
Definition after_call (d : Z) (r : Main.Runtime) : Main.Runtime :=
  {| Main.draws := S (Main.draws r);
     Main.elapsed := Main.elapsed r + Z.max 0 d;
     Main.stdout := Main.stdout r |}.

(** A computation that leaves the receiver's key-value store as it found
    it, whatever it returns. *)
Definition keeps_store {A} (c : Main.M A) : Prop :=
  ∀ s, Main.data (c s).2.1 = Main.data s.1.

(** What a scenario that runs to its end logs for the steps [ops], the
    first of which has index [i]. *)
Fixpoint steps_log (m : Tests.MockIntegrationTest) (v : bool) (i : nat)
    (ops : list string) : list string :=
  match ops with
  | [] => []
  | op :: rest =>
      (if v then [Tests.step_line m i op; Tests.completed_line op] else [])
      ++ steps_log m v (S i) rest
  end.

(** The process state after [k] steps of the scenario [m]. *)
Definition after_steps (m : Tests.MockIntegrationTest) (k : nat)
    (p : Tests.Proc) : Tests.Proc :=
  {| Tests.flags := Tests.flags p; Tests.environ := Tests.environ p;
     Tests.draws :=
       if Tests.simulateFailure (Tests.flags p) then (Tests.draws p + k)%nat
       else Tests.draws p;
     Tests.elapsed :=
       Tests.elapsed p + Z.of_nat k * Z.max 0 (Tests.step_time m) |}.

(** A test body that keeps the name of its [testing.T] and the
    package-level configuration. *)
Definition keeps_config (f : Tests.M unit) : Prop :=
  ∀ t p,
    Tests.tname (f (t, p)).2.1 = Tests.tname t ∧
    Tests.flags (f (t, p)).2.2 = Tests.flags p ∧
    Tests.environ (f (t, p)).2.2 = Tests.environ p.

(** The common shape of the three category tests: skip unless the
    category's flag is set, else log the label and run the scenarios. *)
Definition category_test (Float32 : nat → Q) (on : Tests.Flags → bool)
    (skip_msg var dflt : string) (header : string → string)
    (tests : list (string * Tests.M unit)) : Tests.M unit :=
  b <- Tests.flag on ;;
  if negb b then Tests.t_Skip skip_msg
  else
    ty <- Tests.type_label var dflt ;;
    Tests.t_Log (header ty) ;;;
    Tests.run_subtests tests.

(** The name [t.Run] gives the subtest [n] of the test [parent]. *)
Definition subtest_name (parent : string) (nf : string * Tests.M unit)
    : string :=
  parent +:+ "/" +:+ nf.1.

(** A fresh [testing.T] for the test [n]. *)
Definition fresh (n : string) : Tests.T := Tests.mkT n [] false false [].

Definition category_flags (s d a f v : bool) : Tests.Flags :=
  {| Tests.runStorageTests := s; Tests.runDBTests := d;
     Tests.runAPITests := a; Tests.simulateFailure := f;
     Tests.verbose := v |}.

(** The sixteen scenarios of the three categories, as subtest names. *)
Definition all_scenarios : list string :=
  [ "TestStorageIntegration/Upload"; "TestStorageIntegration/Download";
    "TestStorageIntegration/List"; "TestStorageIntegration/Delete";
    "TestStorageIntegration/Metadata";
    "TestDatabaseIntegration/Connection";
    "TestDatabaseIntegration/Migration"; "TestDatabaseIntegration/CRUD";
    "TestDatabaseIntegration/Transaction";
    "TestDatabaseIntegration/Performance";
    "TestAPIIntegration/Authentication"; "TestAPIIntegration/GET";
    "TestAPIIntegration/POST"; "TestAPIIntegration/PUT";
    "TestAPIIntegration/DELETE"; "TestAPIIntegration/RateLimit" ].

(** The outcome of [Run] on a scenario that takes all its steps: the
    start line, the lines of every step and the pass line are logged, the
    failure mark is untouched, and every step has slept and drawn. *)
Definition passes (Float32 : nat → Q) (m : Tests.MockIntegrationTest)
    (t : Tests.T) (p : Tests.Proc) : Prop :=
  Tests.Run Float32 m (t, p) =
    (tt,
     (Tests.mkT (Tests.tname t)
        (Tests.output t ++ [Tests.start_line m]
           ++ steps_log m (Tests.verbose (Tests.flags p)) 0
                (Tests.operations m)
           ++ [Tests.passed_line m])
        (Tests.failed t) (Tests.skipped t) (Tests.sub t),
      after_steps m (length (Tests.operations m)) p)).

(** The outcome of [Run] on a scenario that fails at its first step: the
    test is marked failed, the failure line names the first step, no step
    is completed, and one step has slept and drawn. *)
Definition fails_at_first_step (Float32 : nat → Q)
    (m : Tests.MockIntegrationTest) (t : Tests.T) (p : Tests.Proc) : Prop :=
  ∃ op rest,
    Tests.operations m = op :: rest ∧
    Tests.Run Float32 m (t, p) =
      (tt,
       (Tests.mkT (Tests.tname t)
          (Tests.output t ++ [Tests.start_line m]
             ++ (if Tests.verbose (Tests.flags p)
                 then [Tests.step_line m 0 op] else [])
             ++ [Tests.failed_line op])
          true (Tests.skipped t) (Tests.sub t),
        after_steps m 1 p)).

(** Every one of the five calls, made in state [(svc, r)], reports its
    simulated failure. *)
Definition all_calls_fail (Float32 : nat → Q)
    (range_keys : gmap string string → list string)
    (svc : Main.MockService) (r : Main.Runtime) (key value : string) : Prop :=
  (Main.Connect Float32 (svc, r)).1
    = Some ("failed to connect to " +:+ Main.name svc) ∧
  (Main.Ping Float32 (svc, r)).1
    = Some (Main.name svc +:+ " is not responding") ∧
  (Main.GetData Float32 key (svc, r)).1
    = ("", Some ("failed to get data from " +:+ Main.name svc)) ∧
  (Main.PutData Float32 key value (svc, r)).1
    = Some ("failed to put data to " +:+ Main.name svc) ∧
  (Main.ListKeys Float32 range_keys (svc, r)).1
    = ([], Some ("failed to list keys from " +:+ Main.name svc)).

(** None of the five calls, made in state [(svc, r)], reports a
    simulated failure; [GetData] answers from the store. *)
Definition no_call_fails (Float32 : nat → Q)
    (range_keys : gmap string string → list string)
    (svc : Main.MockService) (r : Main.Runtime) (key value : string) : Prop :=
  (Main.Connect Float32 (svc, r)).1 = None ∧
  (Main.Ping Float32 (svc, r)).1 = None ∧
  (Main.GetData Float32 key (svc, r)).1
    = match Main.data svc !! key with
      | Some val => (val, None)
      | None => ("", Some ("key " +:+ key +:+ " not found"))
      end ∧
  (Main.PutData Float32 key value (svc, r)).1 = None ∧
  (Main.ListKeys Float32 range_keys (svc, r)).1
    = (range_keys (Main.data svc), None).

(** Two states of a service with the same configuration: the name, the
    response time and the failure rate. *)
Definition same_settings (m m' : Main.MockService) : Prop :=
  Main.name m' = Main.name m ∧
  Main.responseTime m' = Main.responseTime m ∧
  Main.failureRate m' = Main.failureRate m.

(** The run-time state a call made in state [s] leaves. *)
Definition runtime_after {A} (c : Main.M A) (s : Main.MockService * Main.Runtime)
    : Main.Runtime :=
  (c s).2.2.

(** The run-time state after [k] more draws, [d] more nanoseconds of
    sleep and the lines [out] written to standard output. *)
Definition later (k : nat) (d : Z) (out : list string) (r : Main.Runtime)
    : Main.Runtime :=
  {| Main.draws := Main.draws r + k;
     Main.elapsed := Main.elapsed r + d;
     Main.stdout := Main.stdout r ++ out |}.

(** A service with the test pair of an iteration of [main] stored. *)
Definition with_test_data (cfg : Main.ServiceConfig) (now : Z)
    (svc : Main.MockService) : Main.MockService :=
  {| Main.name := Main.name svc; Main.responseTime := Main.responseTime svc;
     Main.failureRate := Main.failureRate svc;
     Main.data :=
       <[Program.testKey now := Program.testValue cfg]> (Main.data svc) |}.

(** The longest one iteration of the test loop of [main] can sleep on a
    service: four calls at the response time and a ping at half of it. *)
Definition iteration_budget (svc : Main.MockService) : Z :=
  4 * Z.max 0 (Main.responseTime svc)
  + Z.max 0 (Main.responseTime svc ÷ 2).

(** The sleep budget of the test loop over the services [l]. *)
Definition total_budget (l : list (Main.ServiceConfig * Main.MockService))
    : Z :=
  foldr (λ cs acc, iteration_budget cs.2 + acc) 0 l.

(** The outcome of [Run] on a scenario that fails at its step of index
    [k]: the steps before it are logged as completed, the failure line
    names the step, the test is marked failed, and [k + 1] steps have
    slept and drawn. *)
Definition fails_at (Float32 : nat → Q) (m : Tests.MockIntegrationTest)
    (k : nat) (t : Tests.T) (p : Tests.Proc) : Prop :=
  ∃ pre op post,
    Tests.operations m = (pre ++ op :: post)%list ∧
    length pre = k ∧
    Tests.Run Float32 m (t, p) =
      (tt,
       (Tests.mkT (Tests.tname t)
          (Tests.output t ++ [Tests.start_line m]
             ++ steps_log m (Tests.verbose (Tests.flags p)) 0 pre
             ++ (if Tests.verbose (Tests.flags p)
                 then [Tests.step_line m k op] else [])
             ++ [Tests.failed_line op])
          true (Tests.skipped t) (Tests.sub t),
        after_steps m (S k) p)).

(** The scenarios of each category, as subtest names. *)
Definition storage_scenarios : list string :=
  [ "TestStorageIntegration/Upload"; "TestStorageIntegration/Download";
    "TestStorageIntegration/List"; "TestStorageIntegration/Delete";
    "TestStorageIntegration/Metadata" ].

Definition database_scenarios : list string :=
  [ "TestDatabaseIntegration/Connection";
    "TestDatabaseIntegration/Migration"; "TestDatabaseIntegration/CRUD";
    "TestDatabaseIntegration/Transaction";
    "TestDatabaseIntegration/Performance" ].

Definition api_scenarios : list string :=
  [ "TestAPIIntegration/Authentication"; "TestAPIIntegration/GET";
    "TestAPIIntegration/POST"; "TestAPIIntegration/PUT";
    "TestAPIIntegration/DELETE"; "TestAPIIntegration/RateLimit" ].

(** A test that was skipped in state [(t, p)] with the message [msg]. *)
Definition skipped_with (msg : string) (t : Tests.T) (p : Tests.Proc)
    : unit * (Tests.T * Tests.Proc) :=
  (tt,
   (Tests.mkT (Tests.tname t) (Tests.output t ++ [msg]) (Tests.failed t)
      true (Tests.sub t), p)).

(** No test of the list, and no subtest of one, is marked failed. *)
Definition none_failed (ts : list Tests.T) : Prop :=
  Forall (λ t, Tests.failed t = false ∧
               Forall (λ c, Tests.failed c = false) (Tests.sub t)) ts.

(** [none_failed] as a test that computes. *)
Definition none_failedb (ts : list Tests.T) : bool :=
  forallb (λ t, negb (Tests.failed t)
                && forallb (λ c, negb (Tests.failed c)) (Tests.sub t)) ts.

(** The labels in use in state [(t, p)]: [mains] printed by the main
    program for its three services, and [st], [db] and [api] logged by
    the three category tests. *)
Definition labels (Float32 : nat → Q) (t : Tests.T) (p : Tests.Proc)
    (mains : list string) (st db api : string) : Prop :=
  Main.label <$> Main.LoadServiceConfig (Tests.environ p) = mains ∧
  Tests.output (Tests.TestStorageIntegration Float32 (t, p)).2.1
    = (Tests.output t
       ++ ["Running storage integration tests (type: " +:+ st +:+ ")"])%list ∧
  Tests.output (Tests.TestDatabaseIntegration Float32 (t, p)).2.1
    = (Tests.output t
       ++ ["Running database integration tests (type: " +:+ db +:+ ")"])%list ∧
  Tests.output (Tests.TestAPIIntegration Float32 (t, p)).2.1
    = (Tests.output t
       ++ ["Running API integration tests (type: " +:+ api +:+ ")"])%list.

(** The subtests [t.Run] makes of the entries [tests] under the test
    named [parent], one after another from the process state [p]: each
    body is run on a fresh [testing.T] named after the parent and the
    entry, in the process state its predecessor left. *)
Fixpoint children_of (parent : string) (tests : list (string * Tests.M unit))
    (p : Tests.Proc) : list Tests.T * Tests.Proc :=
  match tests with
  | [] => ([], p)
  | (n, f) :: rest =>
      let out := f (Tests.mkT (parent +:+ "/" +:+ n) [] false false [], p) in
      let r := children_of parent rest out.2.2 in
      (out.2.1 :: r.1, r.2)
  end.

(** * Properties *)

(** ** The failure decision *)

Lemma Qlt_bool_true (x y : Q) : (x < y)%Q → Qlt_bool x y = true.
Proof.
  intros H. unfold Qlt_bool. apply negb_true_iff.
  destruct (Qle_bool y x) eqn:E; [|done].
  apply Qle_bool_iff in E. exfalso. exact (Qlt_not_le _ _ H E).
Qed.

Lemma Qlt_bool_false (x y : Q) : (y <= x)%Q → Qlt_bool x y = false.
Proof.
  intros H. unfold Qlt_bool. apply negb_false_iff. by apply Qle_bool_iff.
Qed.

Lemma Qlt_bool_spec (x y : Q) :
  ((x < y)%Q ∧ Qlt_bool x y = true) ∨ (¬ (x < y)%Q ∧ Qlt_bool x y = false).
Proof.
  destruct (Qlt_le_dec x y) as [H|H].
  - left. split; [done | by apply Qlt_bool_true].
  - right. split; [by apply Qle_not_lt | by apply Qlt_bool_false].
Qed.

Lemma never_below_zero (Float32 : nat → Q) (p : Q) (n : nat) :
  unit_interval Float32 → (p == 0)%Q → Qlt_bool (Float32 n) p = false.
Proof.
  intros HF Hp. apply Qlt_bool_false. rewrite Hp. apply HF.
Qed.

Lemma always_below_one (Float32 : nat → Q) (p : Q) (n : nat) :
  unit_interval Float32 → (p == 1)%Q → Qlt_bool (Float32 n) p = true.
Proof.
  intros HF Hp. apply Qlt_bool_true. rewrite Hp. apply HF.
Qed.

(** A generator that always returns one half, for the examples. *)
Lemma half_in_unit_interval : unit_interval (λ _, (1 # 2)%Q).
Proof. intros n. split; [discriminate | reflexivity]. Qed.

(** ** The simulated service: which computations keep the store *)

Section ServiceFrame.

Import Main.

Lemma keeps_store_ret {A} (a : A) : keeps_store (ret a : M A).
Proof. by intros s. Qed.

Lemma keeps_store_bind {A B} (c : M A) (k : A → M B) :
  keeps_store c → (∀ a, keeps_store (k a)) → keeps_store (bind c k).
Proof.
  intros Hc Hk s. unfold bind. specialize (Hc s).
  destruct (c s) as [a s'] eqn:E. rewrite (Hk a s'). exact Hc.
Qed.

Lemma keeps_store_this : keeps_store this.
Proof. by intros s. Qed.

Lemma keeps_store_Sleep d : keeps_store (time_Sleep d).
Proof. by intros [m r]. Qed.

Lemma keeps_store_Printf s : keeps_store (fmt_Printf s).
Proof. by intros [m r]. Qed.

Lemma keeps_store_rand Float32 : keeps_store (rand_Float32 Float32).
Proof. by intros [m r]. Qed.

Lemma keeps_store_if {A} (b : bool) (c1 c2 : M A) :
  keeps_store c1 → keeps_store c2 → keeps_store (if b then c1 else c2).
Proof. by destruct b. Qed.

Lemma keeps_store_lookup {A} (o : option string) (f : string → M A) (c : M A) :
  (∀ v, keeps_store (f v)) → keeps_store c →
  keeps_store (match o with Some v => f v | None => c end).
Proof. by destruct o. Qed.

Lemma keeps_store_shouldFail Float32 : keeps_store (shouldFail Float32).
Proof.
  unfold shouldFail.
  apply keeps_store_bind; [apply keeps_store_rand | intros x].
  apply keeps_store_bind; [apply keeps_store_this | intros m].
  apply keeps_store_ret.
Qed.

End ServiceFrame.

Create HintDb frame.
#[export] Hint Resolve keeps_store_ret keeps_store_this keeps_store_Sleep
  keeps_store_Printf keeps_store_rand keeps_store_shouldFail : frame.

(** Walk through a method body: close the calls known to keep the store,
    split sequences and branches. *)
Ltac frame :=
  repeat first
    [ solve [ auto with frame ]
    | apply keeps_store_bind; [ | intros ? ]
    | apply keeps_store_if
    | apply keeps_store_lookup; [ intros ? | ] ].

(** ** The simulated service: what each call returns *)

Section ServiceRuns.

Import Main.

Variable Float32 : nat → Q.
Variable range_keys : gmap string string → list string.

Lemma Connect_run m r :
  Connect Float32 (m, r) =
    if hit Float32 m r
    then (Some ("failed to connect to " +:+ name m),
          (m, after_call (responseTime m) r))
    else (None,
          (m, {| draws := S (draws r);
                 elapsed := elapsed r + Z.max 0 (responseTime m);
                 stdout := stdout r ++ ["✓ Connected to " +:+ name m +:+ LF] |})).
Proof.
  unfold hit. cbv [Connect shouldFail bind this gets ret
    time_Sleep modify rand_Float32 fmt_Printf fst]. simpl.
  by destruct (Qlt_bool _ _).
Qed.

Lemma Ping_run m r :
  Ping Float32 (m, r) =
    (if hit Float32 m r then Some (name m +:+ " is not responding") else None,
     (m, after_call (responseTime m ÷ 2) r)).
Proof.
  unfold hit. cbv [Ping shouldFail bind this gets ret
    time_Sleep modify rand_Float32 fst]. simpl.
  by destruct (Qlt_bool _ _).
Qed.

Lemma GetData_run key m r :
  GetData Float32 key (m, r) =
    (if hit Float32 m r
     then ("", Some ("failed to get data from " +:+ name m))
     else match data m !! key with
          | Some val => (val, None)
          | None => ("", Some ("key " +:+ key +:+ " not found"))
          end,
     (m, after_call (responseTime m) r)).
Proof.
  unfold hit. cbv [GetData shouldFail bind this gets ret
    time_Sleep modify rand_Float32 fst]. simpl.
  destruct (Qlt_bool _ _); [done|]. by destruct (data m !! key).
Qed.

Lemma PutData_run key value m r :
  PutData Float32 key value (m, r) =
    if hit Float32 m r
    then (Some ("failed to put data to " +:+ name m),
          (m, after_call (responseTime m) r))
    else (None,
          ({| name := name m; responseTime := responseTime m;
              failureRate := failureRate m;
              data := <[key := value]> (data m) |},
           after_call (responseTime m) r)).
Proof.
  unfold hit. cbv [PutData shouldFail bind this gets ret
    time_Sleep modify rand_Float32 store fst]. simpl.
  by destruct (Qlt_bool _ _).
Qed.

Lemma ListKeys_run m r :
  ListKeys Float32 range_keys (m, r) =
    (if hit Float32 m r
     then ([], Some ("failed to list keys from " +:+ name m))
     else (range_keys (data m), None),
     (m, after_call (responseTime m) r)).
Proof.
  unfold hit. cbv [ListKeys shouldFail bind this gets ret
    time_Sleep modify rand_Float32 fst]. simpl.
  by destruct (Qlt_bool _ _).
Qed.

End ServiceRuns.

(** ** The scenario runner *)

Section ScenarioRuns.

Import Tests.

Variable Float32 : nat → Q.

Lemma after_steps_0 m p : after_steps m 0 p = p.
Proof.
  destruct p as [fl env d e]. unfold after_steps; simpl.
  f_equal; [by destruct (simulateFailure fl); rewrite ?Nat.add_0_r | lia].
Qed.

Lemma after_steps_S m k p :
  after_steps m k (after_steps m 1 p) = after_steps m (S k) p.
Proof.
  destruct p as [fl env d e]. unfold after_steps; simpl.
  f_equal; [destruct (simulateFailure fl); lia | lia].
Qed.

Lemma after_steps_1 m p :
  after_steps m 1 p =
    {| flags := flags p; environ := environ p;
       draws := if simulateFailure (flags p) then S (draws p) else draws p;
       elapsed := elapsed p + Z.max 0 (step_time m) |}.
Proof.
  unfold after_steps. f_equal; [destruct (simulateFailure _); lia | lia].
Qed.

(** One step on which no failure is injected. *)
Lemma Run_loop_step m i op rest t p :
  (simulateFailure (flags p) = true →
   Qlt_bool (Float32 (draws p)) (failureRate m) = false) →
  Run_loop Float32 m i (op :: rest) (t, p) =
    Run_loop Float32 m (S i) rest
      (mkT (tname t) (output t ++ steps_log m (verbose (flags p)) i [op])
           (failed t) (skipped t) (sub t),
       after_steps m 1 p).
Proof.
  intros Hno. rewrite after_steps_1.
  destruct t as [tn out fl sk sb], p as [[s d a sf v] env n e]. simpl in Hno.
  destruct v, sf; cbn [Run_loop steps_log];
    cbv [bind when t_Log time_Sleep inject flag gets modify ret
         rand_Float32]; simpl; rewrite ?Hno by done; simpl;
    rewrite ?app_nil_r, <- ?app_assoc; reflexivity.
Qed.

(** The loop when no draw falls below the failure rate: every step is
    taken and the function is not left early. *)
Lemma Run_loop_pass m ops :
  (∀ n, Qlt_bool (Float32 n) (failureRate m) = false) →
  ∀ i t p,
    Run_loop Float32 m i ops (t, p) =
      (false,
       (mkT (tname t) (output t ++ steps_log m (verbose (flags p)) i ops)
            (failed t) (skipped t) (sub t),
        after_steps m (length ops) p)).
Proof.
  intros Hno. induction ops as [|op rest IH]; intros i t p.
  - simpl. rewrite app_nil_r, after_steps_0. by destruct t.
  - rewrite Run_loop_step by (intros _; apply Hno).
    rewrite IH. simpl tname. simpl output. simpl failed. simpl skipped.
    simpl sub. rewrite after_steps_S.
    replace (flags (after_steps m 1 p)) with (flags p) by done.
    do 3 f_equal. simpl steps_log. by rewrite app_nil_r, <- app_assoc.
Qed.

(** A scenario on which no draw falls below the failure rate passes with
    all its steps taken. *)
Lemma Run_pass m t p :
  (∀ n, Qlt_bool (Float32 n) (failureRate m) = false) →
  Run Float32 m (t, p) =
    (tt,
     (mkT (tname t)
          (output t ++ [start_line m]
             ++ steps_log m (verbose (flags p)) 0 (operations m)
             ++ [passed_line m])
          (failed t) (skipped t) (sub t),
      after_steps m (length (operations m)) p)).
Proof.
  intros Hno. unfold Run. unfold bind at 1. unfold t_Log at 1, modify.
  unfold bind. rewrite Run_loop_pass by done. unfold t_Log, modify. simpl.
  by rewrite <- !app_assoc.
Qed.

(** A scenario whose first draw falls below the failure rate, with
    failure simulation on, stops at its first step. *)
Lemma Run_fail_first m op rest t p :
  operations m = op :: rest →
  simulateFailure (flags p) = true →
  Qlt_bool (Float32 (draws p)) (failureRate m) = true →
  Run Float32 m (t, p) =
    (tt,
     (mkT (tname t)
          (output t ++ [start_line m]
             ++ (if verbose (flags p) then [step_line m 0 op] else [])
             ++ [failed_line op])
          true (skipped t) (sub t),
      after_steps m 1 p)).
Proof.
  intros Hops Hsf Hhit. unfold Run. rewrite Hops.
  rewrite after_steps_1.
  destruct p as [[s d a sf v] env n e]. simpl in Hsf, Hhit. subst sf.
  destruct v; cbv [Run_loop bind when t_Log t_Errorf time_Sleep inject flag
    gets modify ret rand_Float32]; simpl; rewrite Hhit; simpl;
    rewrite <- ?app_assoc; reflexivity.
Qed.

End ScenarioRuns.

(** ** The category tests and the suite *)

Section Orchestrator.

Import Tests.

Variable Float32 : nat → Q.

Lemma Run_loop_keeps_config m ops :
  ∀ i t p,
    tname (Run_loop Float32 m i ops (t, p)).2.1 = tname t ∧
    flags (Run_loop Float32 m i ops (t, p)).2.2 = flags p ∧
    environ (Run_loop Float32 m i ops (t, p)).2.2 = environ p.
Proof.
  induction ops as [|op rest IH]; intros i t p; [done|].
  destruct t as [tn out fl sk sb], p as [[s d a sf v] env n e].
  cbn [Run_loop].
  cbv [bind when t_Log t_Errorf time_Sleep inject flag gets modify ret
       rand_Float32].
  destruct v, sf; simpl; try destruct (Qlt_bool _ _); simpl; try done;
    exact (IH _ _ _).
Qed.

Lemma Run_keeps_config m : keeps_config (Run Float32 m).
Proof.
  intros t p. remember (Run Float32 m (t, p)) as out eqn:E.
  unfold Run, bind in E. unfold t_Log at 1, modify in E.
  pose proof (Run_loop_keeps_config m (operations m) 0
    (mkT (tname t) (output t ++ [start_line m]) (failed t) (skipped t)
         (sub t)) p) as H.
  destruct (Run_loop _ _ _ _ _) as [[] [t' p']]; subst out; simpl in *;
    exact H.
Qed.

Lemma scenario_keeps_config n ms fr ops :
  keeps_config (scenario Float32 n ms fr ops).
Proof. apply Run_keeps_config. Qed.

(** [t.Run] on a body that keeps the configuration adds one subtest of
    the expected name and changes nothing else of the parent but its
    failure mark. *)
Lemma run_subtests_spec tests :
  Forall (λ nf, keeps_config nf.2) tests →
  ∀ t p,
    tname (run_subtests tests (t, p)).2.1 = tname t ∧
    output (run_subtests tests (t, p)).2.1 = output t ∧
    skipped (run_subtests tests (t, p)).2.1 = skipped t ∧
    tname <$> sub (run_subtests tests (t, p)).2.1 =
      ((tname <$> sub t) ++ (subtest_name (tname t) <$> tests))%list ∧
    flags (run_subtests tests (t, p)).2.2 = flags p ∧
    environ (run_subtests tests (t, p)).2.2 = environ p.
Proof.
  induction 1 as [|[n f] rest Hf _ IH]; intros t p.
  - simpl. by rewrite app_nil_r.
  - cbn [run_subtests]. unfold bind, t_Run. cbv zeta.
    specialize (Hf (mkT (tname t +:+ "/" +:+ n) [] false false []) p).
    simpl in Hf.
    destruct (f _) as [[] [c p']]. simpl in Hf. destruct Hf as (Hn & Hfl & Henv).
    match goal with |- context [run_subtests rest (?t1, _)] =>
      specialize (IH t1 p') end.
    simpl in IH. destruct IH as (H1 & H2 & H3 & H4 & H5 & H6).
    rewrite H1, H2, H3, H4, H5, H6, Hfl, Henv.
    repeat split; try done.
    rewrite fmap_app, <- app_assoc. simpl. unfold subtest_name at 2. simpl.
    by rewrite Hn.
Qed.

Lemma storage_tests_keep_config :
  Forall (λ nf, keeps_config nf.2) (storage_tests Float32).
Proof. repeat constructor; apply scenario_keeps_config. Qed.

Lemma database_tests_keep_config :
  Forall (λ nf, keeps_config nf.2) (database_tests Float32).
Proof. repeat constructor; apply scenario_keeps_config. Qed.

Lemma api_tests_keep_config :
  Forall (λ nf, keeps_config nf.2) (api_tests Float32).
Proof. repeat constructor; apply scenario_keeps_config. Qed.

Lemma TestStorageIntegration_shape :
  TestStorageIntegration Float32 =
    category_test Float32 runStorageTests
      "Storage tests not enabled (use -storage flag)" "STORAGE_TYPE" "mock-s3"
      (λ ty, "Running storage integration tests (type: " +:+ ty +:+ ")")
      (storage_tests Float32).
Proof. reflexivity. Qed.

Lemma TestDatabaseIntegration_shape :
  TestDatabaseIntegration Float32 =
    category_test Float32 runDBTests
      "Database tests not enabled (use -database flag)" "DB_TYPE"
      "mock-postgres"
      (λ ty, "Running database integration tests (type: " +:+ ty +:+ ")")
      (database_tests Float32).
Proof. reflexivity. Qed.

Lemma TestAPIIntegration_shape :
  TestAPIIntegration Float32 =
    category_test Float32 runAPITests
      "API tests not enabled (use -api flag)" "API_TYPE" "mock-rest"
      (λ ty, "Running API integration tests (type: " +:+ ty +:+ ")")
      (api_tests Float32).
Proof. reflexivity. Qed.

(** A category test whose flag is set logs its label and runs all its
    scenarios. *)
Lemma category_test_on on skip_msg var dflt header tests t p :
  Forall (λ nf, keeps_config nf.2) tests →
  on (flags p) = true →
  let out := category_test Float32 on skip_msg var dflt header tests (t, p) in
  let v := default "" (environ p !! var) in
  output out.2.1 =
    (output t ++ [header (if decide (v = "") then dflt else v)])%list ∧
  tname <$> sub out.2.1 =
    ((tname <$> sub t) ++ (subtest_name (tname t) <$> tests))%list ∧
  flags out.2.2 = flags p ∧
  environ out.2.2 = environ p.
Proof.
  intros Hk Hon out v. subst out. unfold category_test.
  cbv [bind flag type_label os_Getenv gets ret t_Log modify]. rewrite Hon.
  cbv beta iota delta [negb]. fold v.
  match goal with |- context [run_subtests tests (?t1, _)] =>
    destruct (run_subtests_spec tests Hk t1 p) as (H1 & H2 & H3 & H4 & H5 & H6)
  end.
  simpl in *. by rewrite H2, H4, H5, H6.
Qed.

(** A category test whose flag is not set is skipped: no scenario runs
    and the process state is untouched. *)
Lemma category_test_off on skip_msg var dflt header tests t p :
  on (flags p) = false →
  category_test Float32 on skip_msg var dflt header tests (t, p) =
    (tt, (mkT (tname t) (output t ++ [skip_msg]) (failed t) true (sub t), p)).
Proof.
  intros Hoff. unfold category_test.
  cbv [bind flag gets t_Skip modify]. by rewrite Hoff.
Qed.

Lemma TestIntegrationSuite_sub t p :
  sub (TestIntegrationSuite (t, p)).2.1 = sub t.
Proof. by destruct p as [[[] [] [] f v] env n e]. Qed.

(** After [TestIntegrationSuite] at least one category flag is set, and
    all three are when none was before. *)
Lemma TestIntegrationSuite_flags t p :
  let fl := flags p in
  flags (TestIntegrationSuite (t, p)).2.2 =
    if negb (runStorageTests fl) && negb (runDBTests fl)
       && negb (runAPITests fl)
    then category_flags true true true (simulateFailure fl) (verbose fl)
    else fl.
Proof. by destruct p as [[[] [] [] f v] env n e]. Qed.

End Orchestrator.

(** ** The claims about the simulated service *)

Section ServiceClaims.

Import Main.

Variable Float32 : nat → Q.
Variable range_keys : gmap string string → list string.

(** C2.  [Connect] is a single attempt: whatever the generator yields, the
    call draws once and sleeps once, and when that one draw falls below
    the failure rate it returns the connection error naming the service
    at once.  There is no second or third attempt, whereas
    [docs/RETRY_LOGIC.md] describes [Connect] as retrying up to three
    times. *)
Theorem Connect_single_attempt (m : MockService) (r : Runtime) :
  draws (Connect Float32 (m, r)).2.2 = S (draws r) ∧
  elapsed (Connect Float32 (m, r)).2.2
    = elapsed r + Z.max 0 (responseTime m) ∧
  (Connect Float32 (m, r)).1
    = if Qlt_bool (Float32 (draws r)) (failureRate m)
      then Some ("failed to connect to " +:+ name m) else None.
Proof.
  rewrite Connect_run. unfold hit. by destruct (Qlt_bool _ _).
Qed.

(** C5.  On a service whose failure rate is zero, [PutData k v] succeeds
    and the [GetData k] that follows returns exactly [v] with no error. *)
Theorem put_then_get (m : MockService) (r : Runtime) (k v : string) :
  unit_interval Float32 →
  (failureRate m == 0)%Q →
  (PutData Float32 k v (m, r)).1 = None ∧
  (GetData Float32 k (PutData Float32 k v (m, r)).2).1 = (v, None).
Proof.
  intros HF Hp. rewrite PutData_run. unfold hit.
  rewrite never_below_zero by done. split; [done|].
  cbn [snd]. rewrite GetData_run. unfold hit. cbn [failureRate data].
  rewrite never_below_zero by done. cbn [fst]. by rewrite lookup_insert_eq.
Qed.

(** C6.  On a freshly constructed service whose failure rate is zero,
    [ListKeys] after [PutData k1 v1] and [PutData k2 v2] succeeds and
    returns a list without duplicates whose members are exactly [k1] and
    [k2], in whatever order the map is visited. *)
Theorem list_after_two_puts (n : string) (rt : Z) (fr : Q) (r : Runtime)
    (k1 v1 k2 v2 : string) :
  unit_interval Float32 →
  visits_each_key_once range_keys →
  (fr == 0)%Q →
  let s1 := PutData Float32 k1 v1 (NewMockService n rt fr, r) in
  let s2 := PutData Float32 k2 v2 s1.2 in
  let out := ListKeys Float32 range_keys s2.2 in
  s1.1 = None ∧ s2.1 = None ∧ out.1.2 = None ∧
  NoDup out.1.1 ∧ ∀ k, k ∈ out.1.1 ↔ k = k1 ∨ k = k2.
Proof.
  intros HF Hrange Hp s1 s2 out. subst out s2 s1.
  unfold visits_each_key_once in Hrange.
  unfold NewMockService.
  rewrite PutData_run. unfold hit. cbn [failureRate].
  rewrite never_below_zero by done. cbn [snd].
  rewrite PutData_run. unfold hit. cbn [failureRate].
  rewrite never_below_zero by done. cbn [snd].
  rewrite ListKeys_run. unfold hit. cbn [failureRate].
  rewrite never_below_zero by done. cbn [fst snd name data].
  repeat split; try done.
  - rewrite Hrange. apply NoDup_fst_map_to_list.
  - rewrite Hrange, list_elem_of_fmap.
    intros ([k' v'] & -> & Hin). apply elem_of_map_to_list in Hin.
    cbn [fst]. rewrite lookup_insert in Hin.
    case_decide; [by right|]. rewrite lookup_insert in Hin.
    case_decide; [by left|]. by rewrite lookup_empty in Hin.
  - rewrite Hrange, list_elem_of_fmap. intros Hk.
    destruct (decide (k2 = k)) as [-> | Hne].
    + exists (k, v2). split; [done|].
      apply elem_of_map_to_list. by rewrite lookup_insert_eq.
    + destruct Hk as [-> | ->]; [|done].
      exists (k1, v1). split; [done|].
      apply elem_of_map_to_list.
      by rewrite lookup_insert_ne, lookup_insert_eq.
Qed.

(** C8.  [GetData key] always makes exactly one failure draw, sleeps the
    response time and leaves the service as it was, and its result is one
    of three cases: the draw is below the failure rate and the result is
    the transient error naming the service; or the draw is not below it,
    the key is absent and the result is the not-found error naming the
    key; or the draw is not below it and the result is the value stored
    under the key. *)
Theorem GetData_cases (m : MockService) (r : Runtime) (key : string) :
  let x := Float32 (draws r) in
  let out := GetData Float32 key (m, r) in
  out.2 = (m, after_call (responseTime m) r) ∧
  (((x < failureRate m)%Q ∧
    out.1 = ("", Some ("failed to get data from " +:+ name m))) ∨
   (¬ (x < failureRate m)%Q ∧ data m !! key = None ∧
    out.1 = ("", Some ("key " +:+ key +:+ " not found"))) ∨
   (∃ val, ¬ (x < failureRate m)%Q ∧ data m !! key = Some val ∧
    out.1 = (val, None))).
Proof.
  intros x out. subst out. rewrite GetData_run. split; [done|].
  unfold hit. fold x. cbn [fst].
  destruct (Qlt_bool_spec x (failureRate m)) as [[Hlt ->]|[Hge ->]].
  - by left.
  - right. destruct (data m !! key) as [val|] eqn:E.
    + right. by exists val.
    + by left.
Qed.

(** C9.  [Connect], [Ping], [GetData] and [ListKeys] leave the key-value
    store exactly as it was, for every state, every key and every
    generator; [PutData] is the one call that writes to it: it either
    leaves the store alone or sets the one key. *)
Theorem store_changed_by_PutData_only (s : MockService * Runtime)
    (key value : string) :
  data (Connect Float32 s).2.1 = data s.1 ∧
  data (Ping Float32 s).2.1 = data s.1 ∧
  data (GetData Float32 key s).2.1 = data s.1 ∧
  data (ListKeys Float32 range_keys s).2.1 = data s.1 ∧
  (data (PutData Float32 key value s).2.1 = data s.1 ∨
   data (PutData Float32 key value s).2.1 = <[key := value]> (data s.1)).
Proof.
  assert (keeps_store (Connect Float32)) as H1 by (unfold Connect; frame).
  assert (keeps_store (Ping Float32)) as H2 by (unfold Ping; frame).
  assert (keeps_store (GetData Float32 key)) as H3 by (unfold GetData; frame).
  assert (keeps_store (ListKeys Float32 range_keys)) as H4
    by (unfold ListKeys; frame).
  repeat split; [apply H1 | apply H2 | apply H3 | apply H4 |].
  destruct s as [m r]. rewrite PutData_run.
  destruct (hit Float32 m r); [by left | by right].
Qed.

(** C10.  When [PutData k v] returns an error, the error is the transient
    one and the service, its key-value store included, is exactly as it
    was before the call. *)
Theorem PutData_failure_atomic (m : MockService) (r : Runtime)
    (k v e : string) :
  (PutData Float32 k v (m, r)).1 = Some e →
  e = "failed to put data to " +:+ name m ∧
  (PutData Float32 k v (m, r)).2.1 = m ∧
  data (PutData Float32 k v (m, r)).2.1 = data m.
Proof.
  rewrite PutData_run. destruct (hit Float32 m r); [|done].
  cbn [fst snd]. intros [= <-]. done.
Qed.

End ServiceClaims.

(** The theorems above at a generator that always returns one half. *)
Lemma put_then_get_witness :
  let m := Main.NewMockService "S3-like Storage" 100000000 0 in
  let r := {| Main.draws := 0; Main.elapsed := 0; Main.stdout := [] |} in
  let Float32 := λ _ : nat, (1 # 2)%Q in
  (Main.PutData Float32 "k" "v" (m, r)).1 = None ∧
  (Main.GetData Float32 "k" (Main.PutData Float32 "k" "v" (m, r)).2).1
    = ("v", None).
Proof.
  intros m r Float32.
  apply (put_then_get Float32 m r "k" "v"); [apply half_in_unit_interval|].
  reflexivity.
Defined.

Lemma list_after_two_puts_witness :
  let r := {| Main.draws := 0; Main.elapsed := 0; Main.stdout := [] |} in
  let Float32 := λ _ : nat, (1 # 2)%Q in
  let range_keys := λ d : gmap string string, (map_to_list d).*1 in
  let s1 := Main.PutData Float32 "a" "1" (Main.NewMockService "Database" 50 0, r) in
  let s2 := Main.PutData Float32 "b" "2" s1.2 in
  let out := Main.ListKeys Float32 range_keys s2.2 in
  s1.1 = None ∧ s2.1 = None ∧ out.1.2 = None ∧
  NoDup out.1.1 ∧ ∀ k, k ∈ out.1.1 ↔ k = "a" ∨ k = "b".
Proof.
  intros r Float32 range_keys.
  apply (list_after_two_puts Float32 range_keys "Database" 50 0 r
           "a" "1" "b" "2").
  - apply half_in_unit_interval.
  - intros d. reflexivity.
  - reflexivity.
Defined.

Lemma PutData_failure_atomic_witness :
  let m := Main.NewMockService "External API" 200000000 1 in
  let r := {| Main.draws := 0; Main.elapsed := 0; Main.stdout := [] |} in
  let Float32 := λ _ : nat, (1 # 2)%Q in
  "failed to put data to External API"
    = "failed to put data to " +:+ Main.name m ∧
  (Main.PutData Float32 "k" "v" (m, r)).2.1 = m ∧
  Main.data (Main.PutData Float32 "k" "v" (m, r)).2.1 = Main.data m.
Proof.
  intros m r Float32.
  apply (PutData_failure_atomic Float32 m r "k" "v"
           "failed to put data to External API").
  reflexivity.
Defined.

(** ** The claims about the scenarios and the suite *)

Section SuiteClaims.

Variable Float32 : nat → Q.

(** C1.  Run in the order of the source, the tests of the package execute
    no scenario at all when no category flag is set: the three category
    tests are skipped first, and [TestIntegrationSuite], which runs last,
    only then sets the three flags and logs the configuration.  With the
    three flags set the same run executes all sixteen scenarios.  The
    fallback does enable every category, but after the tests it was meant
    to enable have been skipped. *)
Theorem fallback_runs_no_scenario (f v : bool) (env : gmap string string) :
  Tests.executed
    (Tests.go_test Float32 (category_flags false false false f v) env) = [] ∧
  Tests.flags
    (Tests.go_test Float32 (category_flags false false false f v) env).2
    = category_flags true true true f v ∧
  Tests.executed
    (Tests.go_test Float32 (category_flags true true true f v) env)
    = all_scenarios.
Proof.
  split; [by destruct f, v|]. split; [by destruct f, v|].
  unfold Tests.go_test, Tests.package_tests. cbn [Tests.run_tests].
  set (p0 := Tests.Build_Proc _ _ _ _).
  rewrite TestStorageIntegration_shape.
  pose proof (category_test_on Float32 Tests.runStorageTests
    "Storage tests not enabled (use -storage flag)" "STORAGE_TYPE" "mock-s3"
    (λ ty, "Running storage integration tests (type: " +:+ ty +:+ ")")
    (Tests.storage_tests Float32) (fresh "TestStorageIntegration") p0
    (storage_tests_keep_config Float32) eq_refl) as H1.
  cbv zeta in H1.
  destruct (category_test _ _ _ _ _ _ _ _) as [[] [t1 p1]].
  destruct H1 as (_ & Hs1 & Hf1 & _). cbn [fst snd] in Hs1, Hf1.
  rewrite TestDatabaseIntegration_shape.
  pose proof (category_test_on Float32 Tests.runDBTests
    "Database tests not enabled (use -database flag)" "DB_TYPE"
    "mock-postgres"
    (λ ty, "Running database integration tests (type: " +:+ ty +:+ ")")
    (Tests.database_tests Float32) (fresh "TestDatabaseIntegration") p1
    (database_tests_keep_config Float32)) as H2.
  rewrite Hf1 in H2. specialize (H2 eq_refl). cbv zeta in H2.
  fold (fresh "TestDatabaseIntegration").
  destruct (category_test _ _ _ _ _ _ _ _) as [[] [t2 p2]].
  destruct H2 as (_ & Hs2 & Hf2 & _). cbn [fst snd] in Hs2, Hf2.
  rewrite TestAPIIntegration_shape.
  pose proof (category_test_on Float32 Tests.runAPITests
    "API tests not enabled (use -api flag)" "API_TYPE" "mock-rest"
    (λ ty, "Running API integration tests (type: " +:+ ty +:+ ")")
    (Tests.api_tests Float32) (fresh "TestAPIIntegration") p2
    (api_tests_keep_config Float32)) as H3.
  rewrite Hf2 in H3. specialize (H3 eq_refl). cbv zeta in H3.
  fold (fresh "TestAPIIntegration").
  destruct (category_test _ _ _ _ _ _ _ _) as [[] [t3 p3]].
  destruct H3 as (_ & Hs3 & _). cbn [fst snd] in Hs3.
  pose proof (TestIntegrationSuite_sub (fresh "TestIntegrationSuite") p3)
    as H4.
  fold (fresh "TestIntegrationSuite").
  destruct (Tests.TestIntegrationSuite _) as [[] [t4 p4]].
  cbn [fst snd] in H4.
  unfold Tests.executed. cbn [fst]. simpl mbind.
  rewrite Hs1, Hs2, Hs3, H4. reflexivity.
Qed.

(** C3.  With failure rate one and a generator within its range, each of
    the five service calls reports its simulated failure, and, failure
    simulation being on, a scenario fails at its first step: the first
    step's draw is below one.  The scenario has a first step, as every
    scenario of the suite does. *)
Theorem rate_one_always_fails
    (range_keys : gmap string string → list string)
    (svc : Main.MockService) (r : Main.Runtime) (key value : string)
    (m : Tests.MockIntegrationTest) (t : Tests.T) (p : Tests.Proc) :
  unit_interval Float32 →
  (Main.failureRate svc == 1)%Q →
  (Tests.failureRate m == 1)%Q →
  Tests.simulateFailure (Tests.flags p) = true →
  Tests.operations m ≠ [] →
  all_calls_fail Float32 range_keys svc r key value ∧
  fails_at_first_step Float32 m t p.
Proof.
  intros HF Hsvc Hm Hsf Hops. split.
  - unfold all_calls_fail.
    rewrite Connect_run, Ping_run, GetData_run, PutData_run, ListKeys_run.
    unfold hit. by rewrite always_below_one.
  - destruct (Tests.operations m) as [|op rest] eqn:E; [done|].
    exists op, rest. split; [done|].
    apply (Run_fail_first Float32 m op rest); [done | done |].
    by apply always_below_one.
Qed.

(** C4.  With failure rate zero and a generator within its range, none of
    the five service calls reports a simulated failure ([GetData] answers
    from the store), and a scenario takes all its steps and passes,
    whether failure simulation is on or off. *)
Theorem rate_zero_never_fails
    (range_keys : gmap string string → list string)
    (svc : Main.MockService) (r : Main.Runtime) (key value : string)
    (m : Tests.MockIntegrationTest) (t : Tests.T) (p : Tests.Proc) :
  unit_interval Float32 →
  (Main.failureRate svc == 0)%Q →
  (Tests.failureRate m == 0)%Q →
  no_call_fails Float32 range_keys svc r key value ∧
  passes Float32 m t p.
Proof.
  intros HF Hsvc Hm. split.
  - unfold no_call_fails.
    rewrite Connect_run, Ping_run, GetData_run, PutData_run, ListKeys_run.
    unfold hit. by rewrite never_below_zero.
  - apply Run_pass. intros n. by apply never_below_zero.
Qed.

(** C7, as amended.  With [STORAGE_TYPE], [DB_TYPE] and [API_TYPE] not
    set, the main program labels each of its three services ["mock"],
    and the three category tests, when enabled, log the labels
    ["mock-s3"], ["mock-postgres"] and ["mock-rest"]. *)
Theorem default_labels (t : Tests.T) (p : Tests.Proc) :
  Tests.environ p !! "STORAGE_TYPE" = None →
  Tests.environ p !! "DB_TYPE" = None →
  Tests.environ p !! "API_TYPE" = None →
  Tests.runStorageTests (Tests.flags p) = true →
  Tests.runDBTests (Tests.flags p) = true →
  Tests.runAPITests (Tests.flags p) = true →
  Main.label <$> Main.LoadServiceConfig (Tests.environ p)
    = ["mock"; "mock"; "mock"] ∧
  Tests.output (Tests.TestStorageIntegration Float32 (t, p)).2.1
    = (Tests.output t
       ++ ["Running storage integration tests (type: mock-s3)"])%list ∧
  Tests.output (Tests.TestDatabaseIntegration Float32 (t, p)).2.1
    = (Tests.output t
       ++ ["Running database integration tests (type: mock-postgres)"])%list ∧
  Tests.output (Tests.TestAPIIntegration Float32 (t, p)).2.1
    = (Tests.output t
       ++ ["Running API integration tests (type: mock-rest)"])%list.
Proof.
  intros Hs Hd Ha Hfs Hfd Hfa. split; [|split; [|split]].
  - unfold Main.LoadServiceConfig, Main.label, Main.os_Getenv. simpl.
    by rewrite Hs, Hd, Ha.
  - rewrite TestStorageIntegration_shape.
    destruct (category_test_on Float32 Tests.runStorageTests
      "Storage tests not enabled (use -storage flag)" "STORAGE_TYPE"
      "mock-s3"
      (λ ty, "Running storage integration tests (type: " +:+ ty +:+ ")")
      (Tests.storage_tests Float32) t p
      (storage_tests_keep_config Float32) Hfs) as (H & _).
    rewrite H, Hs. reflexivity.
  - rewrite TestDatabaseIntegration_shape.
    destruct (category_test_on Float32 Tests.runDBTests
      "Database tests not enabled (use -database flag)" "DB_TYPE"
      "mock-postgres"
      (λ ty, "Running database integration tests (type: " +:+ ty +:+ ")")
      (Tests.database_tests Float32) t p
      (database_tests_keep_config Float32) Hfd) as (H & _).
    rewrite H, Hd. reflexivity.
  - rewrite TestAPIIntegration_shape.
    destruct (category_test_on Float32 Tests.runAPITests
      "API tests not enabled (use -api flag)" "API_TYPE" "mock-rest"
      (λ ty, "Running API integration tests (type: " +:+ ty +:+ ")")
      (Tests.api_tests Float32) t p
      (api_tests_keep_config Float32) Hfa) as (H & _).
    rewrite H, Ha. reflexivity.
Qed.

End SuiteClaims.

(** ** Concrete runs *)

(** The scenario of [testStorageUpload] with its failure rate replaced. *)
Lemma rate_one_always_fails_witness :
  let Float32 := λ _ : nat, (1 # 2)%Q in
  let range_keys := λ d : gmap string string, (map_to_list d).*1 in
  let svc := Main.NewMockService "S3-like Storage" 100000000 1 in
  let r := {| Main.draws := 0; Main.elapsed := 0; Main.stdout := [] |} in
  let m :=
    Tests.set_operations
      (Tests.NewMockIntegrationTest "Storage Upload" 500000000 1)
      [ "Connecting to storage service"; "Generating test file";
        "Uploading file"; "Verifying upload"; "Checking file integrity" ] in
  let p :=
    {| Tests.flags := category_flags true false false true true;
       Tests.environ := ∅; Tests.draws := 0; Tests.elapsed := 0 |} in
  all_calls_fail Float32 range_keys svc r "k" "v" ∧
  fails_at_first_step Float32 m (fresh "TestStorageIntegration/Upload") p.
Proof.
  intros Float32 range_keys svc r m p.
  apply (rate_one_always_fails Float32 range_keys svc r "k" "v" m
           (fresh "TestStorageIntegration/Upload") p).
  - intros n. split; [discriminate | reflexivity].
  - reflexivity.
  - reflexivity.
  - reflexivity.
  - discriminate.
Defined.

(** A scenario without steps has no first step: the loop body never
    runs, so at any failure rate the run logs its start and pass lines
    and leaves the process state as it was. *)
Lemma scenario_without_steps_passes (Float32 : nat → Q)
    (m : Tests.MockIntegrationTest) (t : Tests.T) (p : Tests.Proc) :
  Tests.operations m = [] →
  passes Float32 m t p.
Proof.
  intros Hops. unfold passes, Tests.Run. rewrite Hops.
  unfold bind, Tests.t_Log, modify. cbn [Tests.Run_loop ret steps_log length].
  rewrite after_steps_0.
  cbn [Tests.tname Tests.output Tests.failed Tests.skipped Tests.sub app].
  by rewrite <- app_assoc.
Qed.

Lemma rate_zero_never_fails_witness :
  let Float32 := λ _ : nat, (1 # 2)%Q in
  let range_keys := λ d : gmap string string, (map_to_list d).*1 in
  let svc := Main.NewMockService "Database" 50000000 0 in
  let r := {| Main.draws := 0; Main.elapsed := 0; Main.stdout := [] |} in
  let m :=
    Tests.set_operations
      (Tests.NewMockIntegrationTest "API GET" 300000000 0)
      [ "Making GET request"; "Parsing response"; "Validating data" ] in
  let p :=
    {| Tests.flags := category_flags false false true true true;
       Tests.environ := ∅; Tests.draws := 0; Tests.elapsed := 0 |} in
  no_call_fails Float32 range_keys svc r "k" "v" ∧
  passes Float32 m (fresh "TestAPIIntegration/GET") p.
Proof.
  intros Float32 range_keys svc r m p.
  apply (rate_zero_never_fails Float32 range_keys svc r "k" "v" m
           (fresh "TestAPIIntegration/GET") p).
  - intros n. split; [discriminate | reflexivity].
  - reflexivity.
  - reflexivity.
Defined.

(** C7, as stated, fails in the tests: with [STORAGE_TYPE] not set the
    storage category logs the label ["mock-s3"], not ["mock"]. *)
Lemma storage_label_default_is_mock_s3 :
  let Float32 := λ _ : nat, (1 # 2)%Q in
  let t := fresh "TestStorageIntegration" in
  let p :=
    {| Tests.flags := category_flags true true true false false;
       Tests.environ := ∅; Tests.draws := 0; Tests.elapsed := 0 |} in
  (Tests.type_label "STORAGE_TYPE" "mock-s3" (t, p)).1 = "mock-s3" ∧
  (Tests.type_label "STORAGE_TYPE" "mock-s3" (t, p)).1 ≠ "mock" ∧
  Tests.output (Tests.TestStorageIntegration Float32 (t, p)).2.1
    = ["Running storage integration tests (type: mock-s3)"].
Proof.
  intros Float32 t p. split; [reflexivity|]. split; [discriminate|].
  vm_compute. reflexivity.
Qed.

Lemma default_labels_witness :
  let Float32 := λ _ : nat, (1 # 2)%Q in
  let t := fresh "Test" in
  let p :=
    {| Tests.flags := category_flags true true true false false;
       Tests.environ := ∅; Tests.draws := 0; Tests.elapsed := 0 |} in
  Main.label <$> Main.LoadServiceConfig (Tests.environ p)
    = ["mock"; "mock"; "mock"] ∧
  Tests.output (Tests.TestStorageIntegration Float32 (t, p)).2.1
    = (Tests.output t
       ++ ["Running storage integration tests (type: mock-s3)"])%list ∧
  Tests.output (Tests.TestDatabaseIntegration Float32 (t, p)).2.1
    = (Tests.output t
       ++ ["Running database integration tests (type: mock-postgres)"])%list ∧
  Tests.output (Tests.TestAPIIntegration Float32 (t, p)).2.1
    = (Tests.output t
       ++ ["Running API integration tests (type: mock-rest)"])%list.
Proof.
  intros Float32 t p.
  apply (default_labels Float32 t p); reflexivity.
Defined.

(** C1 at the flags of a plain run: nothing is executed, although the
    suite logs that it is running everything. *)
Example plain_run_log :
  let Float32 := λ _ : nat, (1 # 2)%Q in
  let run :=
    Tests.go_test Float32 (category_flags false false false false false) ∅ in
  Tests.skipped <$> run.1 = [true; true; true; false] ∧
  Tests.sub <$> run.1 = [[]; []; []; []] ∧
  (Tests.output <$> run.1) !! 3%nat =
    Some [ "No specific integration tests requested, running full suite";
           "Integration Test Configuration:"; "  Storage Tests: true";
           "  Database Tests: true"; "  API Tests: true";
           "  Simulate Failures: false"; "  Verbose: false" ].
Proof. vm_compute. done. Qed.

(** C2 at a connect that always fails: one draw, then the error. *)
Example Connect_always_failing :
  let Float32 := λ _ : nat, (1 # 2)%Q in
  let svc := Main.NewMockService "S3-like Storage" 100000000 1 in
  let r := {| Main.draws := 0; Main.elapsed := 0; Main.stdout := [] |} in
  Main.Connect Float32 (svc, r) =
    (Some "failed to connect to S3-like Storage",
     (svc, {| Main.draws := 1; Main.elapsed := 100000000;
              Main.stdout := [] |})).
Proof. reflexivity. Qed.

(** Were [TestIntegrationSuite] run before the category tests, the same
    flags would execute every scenario: the fallback misses only because
    of where it runs. *)
Example fallback_first_runs_everything :
  let Float32 := λ _ : nat, (1 # 2)%Q in
  let suite_first :=
    [ ("TestIntegrationSuite", Tests.TestIntegrationSuite);
      ("TestStorageIntegration", Tests.TestStorageIntegration Float32);
      ("TestDatabaseIntegration", Tests.TestDatabaseIntegration Float32);
      ("TestAPIIntegration", Tests.TestAPIIntegration Float32) ] in
  Tests.executed
    (Tests.run_tests suite_first
       {| Tests.flags := category_flags false false false false false;
          Tests.environ := ∅; Tests.draws := 0; Tests.elapsed := 0 |})
    = all_scenarios.
Proof. vm_compute. reflexivity. Qed.

(** * Further properties of the simulated service *)

Section ServiceExtras.

Import Main.

Variable Float32 : nat → Q.
Variable range_keys : gmap string string → list string.

(** X1.  Read your writes at any failure rate: after a [PutData k v] that
    succeeded, [GetData k] either returns [v] without error or reports
    the transient failure; it never reports the key as not found and
    never returns another value. *)
Theorem get_after_successful_put (m : MockService) (r : Runtime)
    (k v : string) :
  (PutData Float32 k v (m, r)).1 = None →
  (GetData Float32 k (PutData Float32 k v (m, r)).2).1 = (v, None) ∨
  (GetData Float32 k (PutData Float32 k v (m, r)).2).1
    = ("", Some ("failed to get data from " +:+ name m)).
Proof.
  rewrite PutData_run. destruct (hit Float32 m r); [done|]. intros _.
  cbn [snd]. rewrite GetData_run. cbn [fst data name].
  destruct (hit _ _ _); [by right|]. left. by rewrite lookup_insert_eq.
Qed.

(** X2.  [PutData k v] leaves every other key as it was, whether the call
    succeeds or fails. *)
Theorem PutData_other_keys (s : MockService * Runtime) (k v k' : string) :
  k ≠ k' →
  data (PutData Float32 k v s).2.1 !! k' = data s.1 !! k'.
Proof.
  intros Hne. destruct s as [m r]. rewrite PutData_run.
  destruct (hit Float32 m r); [done|]. cbn [fst snd data].
  by rewrite lookup_insert_ne.
Qed.

(** X3.  The last successful write wins and overwriting does not grow the
    store: after [PutData k v1] and a successful [PutData k v2] the store
    holds [v2] under [k], and it is the store before the two calls with
    that one key set. *)
Theorem PutData_overwrites (s : MockService * Runtime) (k v1 v2 : string) :
  (PutData Float32 k v2 (PutData Float32 k v1 s).2).1 = None →
  data (PutData Float32 k v2 (PutData Float32 k v1 s).2).2.1 !! k = Some v2 ∧
  data (PutData Float32 k v2 (PutData Float32 k v1 s).2).2.1
    = <[k := v2]> (data s.1).
Proof.
  destruct s as [m r]. rewrite (PutData_run _ k v1).
  destruct (hit Float32 m r); cbn [snd]; rewrite PutData_run;
    destruct (hit _ _ _); try done; intros _; cbn [fst snd data];
    rewrite ?insert_insert_eq; by rewrite lookup_insert_eq.
Qed.

(** X4.  A key that is not in the store is never read successfully: the
    result of [GetData] is the empty string with an error, whatever the
    failure draw. *)
Theorem GetData_absent_key (m : MockService) (r : Runtime) (key : string) :
  data m !! key = None →
  (GetData Float32 key (m, r)).1.1 = "" ∧
  (GetData Float32 key (m, r)).1.2 ≠ None.
Proof.
  intros Habs. rewrite GetData_run, Habs. by destruct (hit _ _ _).
Qed.

(** X5.  When [ListKeys] succeeds it returns every key of the store once:
    no duplicates, a key is listed exactly when the store has a value
    for it, and the length is the size of the store.  Otherwise it
    reports the transient failure with an empty list. *)
Theorem ListKeys_lists_the_store (m : MockService) (r : Runtime) :
  visits_each_key_once range_keys →
  let out := (ListKeys Float32 range_keys (m, r)).1 in
  (out.2 = None ∧
   NoDup out.1 ∧ (∀ k, k ∈ out.1 ↔ is_Some (data m !! k)) ∧
   length out.1 = size (data m)) ∨
  (out.2 = Some ("failed to list keys from " +:+ name m) ∧ out.1 = []).
Proof.
  intros Hrange out. subst out. unfold visits_each_key_once in Hrange.
  rewrite ListKeys_run. cbn [fst].
  destruct (hit _ _ _); cbn [fst snd]; [by right | left].
  split; [done|]. split; [|split].
  - rewrite Hrange. apply NoDup_fst_map_to_list.
  - intros k. rewrite Hrange, list_elem_of_fmap. split.
    + intros ([k' v'] & -> & Hin). apply elem_of_map_to_list in Hin. eauto.
    + intros [v' Hv]. exists (k, v'). split; [done|].
      by apply elem_of_map_to_list.
  - by rewrite Hrange, length_fmap, length_map_to_list.
Qed.

(** X6.  No call changes the configuration of the service: its name, its
    response time and its failure rate are the same after each of the
    five calls. *)
Theorem calls_keep_settings (m : MockService) (r : Runtime)
    (key value : string) :
  same_settings m (Connect Float32 (m, r)).2.1 ∧
  same_settings m (Ping Float32 (m, r)).2.1 ∧
  same_settings m (GetData Float32 key (m, r)).2.1 ∧
  same_settings m (PutData Float32 key value (m, r)).2.1 ∧
  same_settings m (ListKeys Float32 range_keys (m, r)).2.1.
Proof.
  rewrite Connect_run, Ping_run, GetData_run, PutData_run, ListKeys_run.
  unfold same_settings. by destruct (hit _ _ _).
Qed.

(** X7.  Every call makes exactly one failure draw and never turns the
    clock back; only a successful [Connect] writes to standard output,
    and it writes one line. *)
Theorem calls_footprint (m : MockService) (r : Runtime)
    (key value : string) :
  let s := (m, r) in
  (draws (runtime_after (Connect Float32) s) = S (draws r) ∧
   draws (runtime_after (Ping Float32) s) = S (draws r) ∧
   draws (runtime_after (GetData Float32 key) s) = S (draws r) ∧
   draws (runtime_after (PutData Float32 key value) s) = S (draws r) ∧
   draws (runtime_after (ListKeys Float32 range_keys) s) = S (draws r)) ∧
  (elapsed r <= elapsed (runtime_after (Connect Float32) s) ∧
   elapsed r <= elapsed (runtime_after (Ping Float32) s) ∧
   elapsed r <= elapsed (runtime_after (GetData Float32 key) s) ∧
   elapsed r <= elapsed (runtime_after (PutData Float32 key value) s) ∧
   elapsed r <= elapsed (runtime_after (ListKeys Float32 range_keys) s)) ∧
  (stdout (runtime_after (Ping Float32) s) = stdout r ∧
   stdout (runtime_after (GetData Float32 key) s) = stdout r ∧
   stdout (runtime_after (PutData Float32 key value) s) = stdout r ∧
   stdout (runtime_after (ListKeys Float32 range_keys) s) = stdout r) ∧
  stdout (runtime_after (Connect Float32) s)
    = (stdout r
       ++ match (Connect Float32 s).1 with
          | None => ["✓ Connected to " +:+ name m +:+ LF]
          | Some _ => []
          end)%list.
Proof.
  intros s. subst s. unfold runtime_after.
  rewrite Connect_run, Ping_run, GetData_run, PutData_run, ListKeys_run.
  destruct (hit _ _ _); cbn [fst snd draws elapsed stdout after_call];
    rewrite ?app_nil_r; repeat split; try done; lia.
Qed.

(** X8.  A failure rate at or below zero behaves as zero: with draws in
    the unit interval no call ever reports a simulated failure. *)
Theorem nonpositive_rate_never_fails (svc : MockService) (r : Runtime)
    (key value : string) :
  unit_interval Float32 →
  (failureRate svc <= 0)%Q →
  no_call_fails Float32 range_keys svc r key value.
Proof.
  intros HF Hp. unfold no_call_fails.
  rewrite Connect_run, Ping_run, GetData_run, PutData_run, ListKeys_run.
  assert (hit Float32 svc r = false) as ->; [|done].
  apply Qlt_bool_false. eapply Qle_trans; [exact Hp | apply HF].
Qed.

(** X9.  A failure rate at or above one behaves as one: with draws in the
    unit interval every call reports its simulated failure. *)
Theorem rate_at_least_one_always_fails (svc : MockService) (r : Runtime)
    (key value : string) :
  unit_interval Float32 →
  (1 <= failureRate svc)%Q →
  all_calls_fail Float32 range_keys svc r key value.
Proof.
  intros HF Hp. unfold all_calls_fail.
  rewrite Connect_run, Ping_run, GetData_run, PutData_run, ListKeys_run.
  assert (hit Float32 svc r = true) as ->; [|done].
  apply Qlt_bool_true. eapply Qlt_le_trans; [apply HF | exact Hp].
Qed.

(** X10.  Failures have no memory: a second [Connect], made right after a
    first one, succeeds or fails by the second draw alone, whatever the
    first call did. *)
Theorem Connect_again (m : MockService) (r : Runtime) :
  (Connect Float32 (Connect Float32 (m, r)).2).1
    = if Qlt_bool (Float32 (S (draws r))) (failureRate m)
      then Some ("failed to connect to " +:+ name m) else None.
Proof.
  rewrite (Connect_run _ m r).
  destruct (hit Float32 m r); cbn [snd]; rewrite Connect_run; unfold hit;
    cbn [draws after_call failureRate]; by destruct (Qlt_bool _ _).
Qed.

End ServiceExtras.

(** * Properties of the program *)

Section ProgramExtras.

Import Main Program.

Variable Float32 : nat → Q.
Variable range_keys : gmap string string → list string.

Lemma later_0 r : later 0 0 [] r = r.
Proof.
  destruct r as [d e o]. unfold later; simpl.
  by rewrite Nat.add_0_r, Z.add_0_r, app_nil_r.
Qed.

(** One iteration of the test loop, by the five draws it can make. *)
Lemma test_service_run cfg now svc r :
  let h j := Qlt_bool (Float32 (draws r + j)) (failureRate svc) in
  let d := Z.max 0 (responseTime svc) in
  let d2 := Z.max 0 (responseTime svc ÷ 2) in
  let l0 := LF +:+ "Testing " +:+ Name cfg +:+ ":" +:+ LF in
  let l1 := "✓ Connected to " +:+ name svc +:+ LF in
  let l2 := "  ✓ Ping successful" +:+ LF in
  let l3 := "  ✓ Data stored successfully" +:+ LF in
  let l4 := "  ✓ Data retrieved successfully" +:+ LF in
  let l5 :=
    "  ✓ Listed "
    +:+ pretty (length (range_keys (data (with_test_data cfg now svc))))
    +:+ " keys" +:+ LF in
  test_service Float32 range_keys cfg now (svc, r) =
    if h 0%nat then
      (Some ("  ✗ Connection failed: failed to connect to " +:+ name svc),
       (svc, later 1 d [l0] r))
    else if h 1%nat then
      (Some ("  ✗ Ping failed: " +:+ name svc +:+ " is not responding"),
       (svc, later 2 (d + d2) [l0; l1] r))
    else if h 2%nat then
      (Some ("  ✗ Put data failed: failed to put data to " +:+ name svc),
       (svc, later 3 (d + d2 + d) [l0; l1; l2] r))
    else if h 3%nat then
      (Some ("  ✗ Get data failed: failed to get data from " +:+ name svc),
       (with_test_data cfg now svc,
        later 4 (d + d2 + d + d) [l0; l1; l2; l3] r))
    else if h 4%nat then
      (Some ("  ✗ List keys failed: failed to list keys from " +:+ name svc),
       (with_test_data cfg now svc,
        later 5 (d + d2 + d + d + d) [l0; l1; l2; l3; l4] r))
    else
      (None,
       (with_test_data cfg now svc,
        later 5 (d + d2 + d + d + d) [l0; l1; l2; l3; l4; l5] r)).
Proof.
  intros h d d2 l0 l1 l2 l3 l4 l5.
  assert (Hlater : ∀ k z o n e s,
    n = (draws r + k)%nat → e = elapsed r + z → s = (stdout r ++ o)%list →
    {| draws := n; elapsed := e; stdout := s |} = later k z o r)
    by (intros; subst; reflexivity).
  unfold test_service. unfold bind at 1. unfold fmt_Printf at 1, modify.
  unfold bind at 1. rewrite Connect_run. unfold hit. cbn [draws failureRate].
  replace (draws r) with (draws r + 0)%nat at 1 by lia. fold (h 0%nat).
  destruct (h 0%nat).
  { unfold ret. do 2 f_equal. unfold after_call. cbn [draws elapsed stdout].
    apply Hlater; [lia | done | done]. }
  unfold bind at 1. rewrite Ping_run. unfold hit. cbn [draws failureRate].
  replace (S (draws r)) with (draws r + 1)%nat by lia. fold (h 1%nat).
  destruct (h 1%nat).
  { unfold ret. do 2 f_equal. unfold after_call. cbn [draws elapsed stdout].
    apply Hlater; [lia | subst d d2; lia | by rewrite <- app_assoc]. }
  unfold bind at 1. unfold fmt_Printf at 1, modify.
  unfold bind at 1. rewrite PutData_run. unfold hit, after_call.
  cbn [draws elapsed stdout failureRate].
  replace (S (draws r + 1)) with (draws r + 2)%nat by lia. fold (h 2%nat).
  destruct (h 2%nat).
  { unfold ret. do 2 f_equal.
    apply Hlater; [lia | subst d d2; lia | by rewrite <- !app_assoc]. }
  unfold bind at 1. unfold fmt_Printf at 1, modify.
  unfold bind at 1. rewrite GetData_run. unfold hit, after_call.
  cbn [draws elapsed stdout failureRate name responseTime data].
  replace (S (draws r + 2)) with (draws r + 3)%nat by lia. fold (h 3%nat).
  destruct (h 3%nat).
  { cbn [fst snd]. unfold ret. do 2 f_equal.
    apply Hlater; [lia | subst d d2; lia | by rewrite <- !app_assoc]. }
  rewrite lookup_insert_eq. cbn [fst snd].
  destruct (decide (testValue cfg ≠ testValue cfg)) as [Hne|_]; [done|].
  unfold bind at 1. unfold fmt_Printf at 1, modify.
  unfold bind at 1. rewrite ListKeys_run. unfold hit, after_call.
  cbn [draws elapsed stdout failureRate name responseTime data].
  replace (S (draws r + 3)) with (draws r + 4)%nat by lia. fold (h 4%nat).
  destruct (h 4%nat).
  { cbn [fst snd]. unfold ret. do 2 f_equal.
    apply Hlater; [lia | subst d d2; lia | by rewrite <- !app_assoc]. }
  cbn [fst snd]. unfold bind, fmt_Printf, modify, ret.
  cbn [draws elapsed stdout]. do 2 f_equal.
  apply Hlater; [lia | subst d d2; lia | by rewrite <- !app_assoc].
Qed.

(** X11.  An iteration of the test loop of [main] logs nothing or one of
    five failure lines, each naming the step and the service.  The
    data-mismatch line is never logged: a value read back after a
    successful store is always the value stored. *)
Theorem test_service_outcomes (cfg : ServiceConfig) (now : Z)
    (svc : MockService) (r : Runtime) :
  let out := (test_service Float32 range_keys cfg now (svc, r)).1 in
  (out = None ∨
   out = Some ("  ✗ Connection failed: failed to connect to " +:+ name svc) ∨
   out = Some ("  ✗ Ping failed: " +:+ name svc +:+ " is not responding") ∨
   out = Some ("  ✗ Put data failed: failed to put data to " +:+ name svc) ∨
   out = Some ("  ✗ Get data failed: failed to get data from "
               +:+ name svc) ∨
   out = Some ("  ✗ List keys failed: failed to list keys from "
               +:+ name svc)) ∧
  ∀ got,
    out ≠ Some ("  ✗ Data mismatch: expected " +:+ testValue cfg +:+ ", got "
                +:+ got).
Proof.
  intros out. subst out. rewrite test_service_run.
  repeat (destruct (Qlt_bool _ _); [cbn [fst]; split; [tauto|]; intros got;
    intros H; cbv [String.append] in H; discriminate H|]).
  cbn [fst]. split; [tauto | done].
Qed.

(** X12.  An iteration of the test loop changes the store of its service
    by at most its one test key and never changes the service's
    settings: when it logs nothing the store holds the test value under
    the test key; when it logs a failure the store is either untouched
    or holds that one pair more. *)
Theorem test_service_store (cfg : ServiceConfig) (now : Z)
    (svc : MockService) (r : Runtime) :
  let out := test_service Float32 range_keys cfg now (svc, r) in
  same_settings svc out.2.1 ∧
  ((out.1 = None ∧
    data out.2.1 = <[testKey now := testValue cfg]> (data svc)) ∨
   (out.1 ≠ None ∧
    (data out.2.1 = data svc ∨
     data out.2.1 = <[testKey now := testValue cfg]> (data svc)))).
Proof.
  intros out. subst out. rewrite test_service_run.
  repeat (destruct (Qlt_bool _ _); [cbn [fst snd with_test_data data];
    split; [done|]; right; split; [done | tauto]|]).
  cbn [fst snd with_test_data data]. split; [done|]. by left.
Qed.

(** X13.  An iteration of the test loop makes between one and five
    failure draws, sleeps no longer than four response times and half a
    response time, and only adds to standard output. *)
Theorem test_service_cost (cfg : ServiceConfig) (now : Z)
    (svc : MockService) (r : Runtime) :
  let r' := (test_service Float32 range_keys cfg now (svc, r)).2.2 in
  (draws r < draws r' ≤ draws r + 5)%nat ∧
  elapsed r <= elapsed r' <= elapsed r + iteration_budget svc ∧
  stdout r `prefix_of` stdout r'.
Proof.
  intros r'. subst r'. rewrite test_service_run. unfold iteration_budget.
  repeat (destruct (Qlt_bool _ _); [cbn [fst snd later draws elapsed stdout];
    split; [lia|]; split; [lia|]; by eexists|]).
  cbn [fst snd later draws elapsed stdout].
  split; [lia|]. split; [lia|]. by eexists.
Qed.

(** X14.  On a service with an empty store, an iteration on which none of
    the five draws falls below the failure rate logs nothing, stores the
    test pair, and reports one listed key. *)
Theorem test_service_succeeds (cfg : ServiceConfig) (now : Z)
    (svc : MockService) (r : Runtime) :
  visits_each_key_once range_keys →
  (∀ j, (j < 5)%nat →
        Qlt_bool (Float32 (draws r + j)) (failureRate svc) = false) →
  data svc = ∅ →
  test_service Float32 range_keys cfg now (svc, r) =
    (None,
     (with_test_data cfg now svc,
      later 5 (iteration_budget svc)
        [ LF +:+ "Testing " +:+ Name cfg +:+ ":" +:+ LF;
          "✓ Connected to " +:+ name svc +:+ LF;
          "  ✓ Ping successful" +:+ LF;
          "  ✓ Data stored successfully" +:+ LF;
          "  ✓ Data retrieved successfully" +:+ LF;
          "  ✓ Listed 1 keys" +:+ LF ] r)).
Proof.
  intros Hrange Hno Hempty. unfold visits_each_key_once in Hrange.
  rewrite test_service_run.
  rewrite !Hno by lia. unfold with_test_data. cbn [data].
  rewrite (Permutation_length (Hrange _)).
  rewrite length_fmap, length_map_to_list, Hempty.
  rewrite map_size_insert_None by apply lookup_empty.
  rewrite map_size_empty. do 3 f_equal. unfold iteration_budget. lia.
Qed.

End ProgramExtras.

Section MainExtras.

Import Main Program.

Variable Float32 : nat → Q.
Variable range_keys : gmap string string → list string.
Variable Unix : nat → Z.

(** What one iteration costs and what it leaves in the store. *)
Lemma test_service_summary cfg now svc r :
  let out := test_service Float32 range_keys cfg now (svc, r) in
  (draws r < draws out.2.2 ≤ draws r + 5)%nat ∧
  elapsed r <= elapsed out.2.2 <= elapsed r + iteration_budget svc ∧
  same_settings svc out.2.1 ∧
  (data out.2.1 = data svc ∨
   data out.2.1 = <[testKey now := testValue cfg]> (data svc)).
Proof.
  intros out. subst out. rewrite test_service_run. unfold iteration_budget.
  repeat (destruct (Qlt_bool _ _);
    [cbn [fst snd later draws elapsed with_test_data data];
     split; [lia|]; split; [lia|]; split; [done | tauto]|]).
  cbn [fst snd later draws elapsed with_test_data data].
  split; [lia|]. split; [lia|]. split; [done | tauto].
Qed.

(** The test loop over any services: every service is visited, at most
    one line is logged for each, and draws, sleep and stores stay within
    the bounds of the iterations. *)
Lemma test_services_cost l :
  ∀ i r,
    let out := test_services Float32 range_keys Unix i l r in
    length out.1.1 = length l ∧
    (length out.1.2 ≤ length l)%nat ∧
    (draws r + length l ≤ draws out.2 ≤ draws r + 5 * length l)%nat ∧
    elapsed r <= elapsed out.2 <= elapsed r + total_budget l ∧
    Forall2 (λ cs svc', same_settings cs.2 svc' ∧
                        (size (data svc') ≤ S (size (data cs.2)))%nat)
            l out.1.1.
Proof.
  induction l as [|[cfg svc] rest IH]; intros i r out; subst out.
  - simpl. repeat split; try lia. constructor.
  - cbn [test_services].
    pose proof (test_service_summary cfg (Unix i) svc r) as Hc.
    cbv zeta in Hc.
    destruct (test_service _ _ _ _ _) as [lg [svc' r']].
    cbn [fst snd] in Hc. destruct Hc as (Hd & He & Hset & Hdata).
    specialize (IH (S i) r'). cbv zeta in IH.
    destruct (test_services _ _ _ _ _ _) as [[svcs lgs] r''].
    cbn [fst snd] in IH |- *.
    destruct IH as (IH1 & IH2 & IH3 & IH4 & IH5).
    cbn [length total_budget foldr snd]. fold (total_budget rest).
    rewrite length_app.
    assert (length (option_list lg) ≤ 1)%nat by (destruct lg; simpl; lia).
    repeat split; try lia.
    constructor; [|done]. split; [done|]. cbn [snd].
    destruct Hdata as [-> | ->]; [lia|].
    rewrite map_size_insert. destruct (data svc !! _); simpl; lia.
Qed.

(** X15.  Whatever the generator, the environment and the clock, [main]
    tests all three services, logs at most three lines, makes between
    three and fifteen failure draws, sleeps at most 1.575 seconds, and
    leaves at most one key in each service. *)
Theorem main_bounds (env : gmap string string) (r : Runtime) :
  let out := main Float32 range_keys Unix env r in
  length out.1.1 = 3%nat ∧
  (length out.1.2 ≤ 3)%nat ∧
  (draws r + 3 ≤ draws out.2 ≤ draws r + 15)%nat ∧
  elapsed r <= elapsed out.2 <= elapsed r + 1575 * Millisecond ∧
  Forall (λ svc, (size (data svc) ≤ 1)%nat) out.1.1.
Proof.
  intros out. subst out. unfold main, init_services, LoadServiceConfig.
  cbn [fmap list_fmap zip zip_with foldl].
  match goal with |- context [test_services _ _ _ 0 ?l ?r0] =>
    pose proof (test_services_cost l 0 r0) as H; cbv zeta in H;
    destruct (test_services Float32 range_keys Unix 0 l r0)
      as [[svcs lg] r'] end.
  cbn [fst snd] in H |- *. destruct H as (H1 & H2 & H3 & H4 & H5).
  cbn [length] in H1, H2, H3.
  match type of H4 with context [total_budget ?l] =>
    set (b := total_budget l) in H4; vm_compute in b; subst b end.
  unfold Millisecond. cbn [print draws elapsed] in *.
  repeat split; try lia.
  destruct svcs as [|s1 [|s2 [|s3 [|]]]]; try discriminate H1.
  apply Forall2_cons_1 in H5 as [[_ Ha] H5].
  apply Forall2_cons_1 in H5 as [[_ Hb] H5].
  apply Forall2_cons_1 in H5 as [[_ Hc] _].
  cbn [snd NewMockService data] in Ha, Hb, Hc.
  rewrite map_size_empty in Ha, Hb, Hc.
  repeat (apply Forall_cons_2; [assumption|]). apply Forall_nil_2.
Qed.

(** X16.  When every draw is at least the largest configured failure
    rate, [main] logs no failure, makes all fifteen draws, sleeps exactly
    1.575 seconds, and leaves in each service exactly its test pair. *)
Theorem main_all_pass (env : gmap string string) (r : Runtime) :
  (∀ n, (13421773 # 268435456 <= Float32 n)%Q) →
  let out := main Float32 range_keys Unix env r in
  out.1.2 = [] ∧
  draws out.2 = (draws r + 15)%nat ∧
  elapsed out.2 = elapsed r + 1575 * Millisecond ∧
  data <$> out.1.1 =
    [ {[ testKey (Unix 0) := "test-value-S3-like Storage" ]};
      {[ testKey (Unix 1) := "test-value-Database" ]};
      {[ testKey (Unix 2) := "test-value-External API" ]} ].
Proof.
  intros Hhigh out. subst out.
  assert (Hno : ∀ n p, (p <= 13421773 # 268435456)%Q →
                       Qlt_bool (Float32 n) p = false).
  { intros n p Hp. apply Qlt_bool_false.
    eapply Qle_trans; [exact Hp | apply Hhigh]. }
  unfold main, init_services, LoadServiceConfig, NewMockService.
  cbn [fmap list_fmap zip zip_with foldl test_services].
  rewrite test_service_run. cbn [failureRate FailureRate].
  rewrite !Hno by done. cbn [fst snd].
  rewrite test_service_run. cbn [failureRate FailureRate].
  rewrite !Hno by done. cbn [fst snd].
  rewrite test_service_run. cbn [failureRate FailureRate].
  rewrite !Hno by done. cbn [fst snd].
  cbn [option_list app later print draws elapsed stdout with_test_data data
       responseTime ResponseTime Name fmap list_fmap].
  split; [done|]. split; [lia|].
  split; [rewrite <- !Z.add_assoc; f_equal; reflexivity|].
  rewrite !insert_empty. reflexivity.
Qed.

End MainExtras.

(** * Further properties of the scenario runner *)

Section ScenarioExtras.

Import Tests.

Variable Float32 : nat → Q.

Lemma after_steps_add m j k p :
  after_steps m k (after_steps m j p) = after_steps m (j + k) p.
Proof.
  destruct p as [fl env d e]. unfold after_steps; simpl.
  f_equal; [destruct (simulateFailure fl); lia | lia].
Qed.

(** A run of steps on which no failure is injected. *)
Lemma Run_loop_prefix m pre :
  ∀ post i t p,
    (simulateFailure (flags p) = true →
     ∀ j, (j < length pre)%nat →
          Qlt_bool (Float32 (draws p + j)) (failureRate m) = false) →
    Run_loop Float32 m i (pre ++ post) (t, p) =
      Run_loop Float32 m (i + length pre) post
        (mkT (tname t) (output t ++ steps_log m (verbose (flags p)) i pre)
             (failed t) (skipped t) (sub t),
         after_steps m (length pre) p).
Proof.
  induction pre as [|op pre IH]; intros post i t p Hno.
  - simpl. rewrite app_nil_r, after_steps_0, Nat.add_0_r. by destruct t.
  - cbn [app]. rewrite Run_loop_step.
    2:{ intros Hsf. specialize (Hno Hsf 0%nat). rewrite Nat.add_0_r in Hno.
        apply Hno. simpl. lia. }
    rewrite IH.
    2:{ intros Hsf j Hj. unfold after_steps in Hsf |- *.
        cbn [flags draws] in Hsf |- *. rewrite Hsf.
        replace (draws p + 1 + j)%nat with (draws p + S j)%nat by lia.
        apply Hno; [done | simpl; lia]. }
    cbn [tname output failed skipped sub]. rewrite after_steps_add.
    replace (flags (after_steps m 1 p)) with (flags p) by done.
    cbn [length steps_log]. rewrite app_nil_r, <- app_assoc.
    by replace (S i + length pre)%nat with (i + S (length pre))%nat by lia.
Qed.

(** A step on which a failure is injected ends the loop. *)
Lemma Run_loop_hit m i op post t p :
  simulateFailure (flags p) = true →
  Qlt_bool (Float32 (draws p)) (failureRate m) = true →
  Run_loop Float32 m i (op :: post) (t, p) =
    (true,
     (mkT (tname t)
          (output t ++ (if verbose (flags p) then [step_line m i op] else [])
             ++ [failed_line op])
          true (skipped t) (sub t),
      after_steps m 1 p)).
Proof.
  intros Hsf Hhit. rewrite after_steps_1.
  destruct p as [[s d a sf v] env n e]. simpl in Hsf, Hhit. subst sf.
  destruct v; cbv [Run_loop bind when t_Log t_Errorf time_Sleep inject flag
    gets modify ret rand_Float32]; simpl; rewrite Hhit; simpl;
    rewrite <- ?app_assoc; reflexivity.
Qed.

(** The loop either visits every step or stops at the first step whose
    draw is below the failure rate. *)
Lemma Run_loop_outcome m ops :
  ∀ i t p,
    Run_loop Float32 m i ops (t, p) =
      (false,
       (mkT (tname t) (output t ++ steps_log m (verbose (flags p)) i ops)
            (failed t) (skipped t) (sub t),
        after_steps m (length ops) p)) ∨
    ∃ pre op post,
      ops = (pre ++ op :: post)%list ∧
      Run_loop Float32 m i ops (t, p) =
        (true,
         (mkT (tname t)
              (output t ++ steps_log m (verbose (flags p)) i pre
                 ++ (if verbose (flags p)
                     then [step_line m (i + length pre) op] else [])
                 ++ [failed_line op])
              true (skipped t) (sub t),
          after_steps m (S (length pre)) p)).
Proof.
  induction ops as [|op rest IH]; intros i t p.
  - left. simpl. rewrite app_nil_r, after_steps_0. by destruct t.
  - destruct (simulateFailure (flags p)) eqn:Hsf;
      [destruct (Qlt_bool (Float32 (draws p)) (failureRate m)) eqn:Hhit|].
    + right. exists [], op, rest. split; [done|].
      rewrite Run_loop_hit by done. simpl. by rewrite Nat.add_0_r.
    + rewrite Run_loop_step by done.
      edestruct IH as [-> | (pre & op' & post & -> & ->)].
      * left. cbn [tname output failed skipped sub length steps_log].
        rewrite after_steps_S, app_nil_r, <- app_assoc. done.
      * right. exists (op :: pre), op', post. split; [done|].
        cbn [tname output failed skipped sub length steps_log].
        rewrite after_steps_add, app_nil_r, <- !app_assoc.
        replace (flags (after_steps m 1 p)) with (flags p) by done.
        by replace (S i + length pre)%nat with (i + S (length pre))%nat
          by lia.
    + rewrite Run_loop_step by (rewrite Hsf; done).
      edestruct IH as [-> | (pre & op' & post & -> & ->)].
      * left. cbn [tname output failed skipped sub length steps_log].
        rewrite after_steps_S, app_nil_r, <- app_assoc. done.
      * right. exists (op :: pre), op', post. split; [done|].
        cbn [tname output failed skipped sub length steps_log].
        rewrite after_steps_add, app_nil_r, <- !app_assoc.
        replace (flags (after_steps m 1 p)) with (flags p) by done.
        by replace (S i + length pre)%nat with (i + S (length pre))%nat
          by lia.
Qed.

Lemma Run_loop_pass_when m ops i t p :
  (simulateFailure (flags p) = true →
   ∀ j, (j < length ops)%nat →
        Qlt_bool (Float32 (draws p + j)) (failureRate m) = false) →
  Run_loop Float32 m i ops (t, p) =
    (false,
     (mkT (tname t) (output t ++ steps_log m (verbose (flags p)) i ops)
          (failed t) (skipped t) (sub t),
      after_steps m (length ops) p)).
Proof.
  intros Hno. rewrite <- (app_nil_r ops) at 1.
  by rewrite Run_loop_prefix.
Qed.

Lemma Run_unfold m t p :
  Run Float32 m (t, p) =
    let out :=
      Run_loop Float32 m 0 (operations m)
        (mkT (tname t) (output t ++ [start_line m]) (failed t) (skipped t)
             (sub t), p) in
    if out.1 then (tt, out.2) else t_Log (passed_line m) out.2.
Proof.
  unfold Run, bind. unfold t_Log at 1, modify.
  by destruct (Run_loop _ _ _ _ _) as [[] ?].
Qed.

(** X17.  With failure simulation on, a scenario fails at the first step
    whose draw falls below the failure rate: every earlier step is logged
    as completed before the failure line, no later step is attempted,
    and the test is marked failed. *)
Theorem Run_fails_at_first_hit (m : MockIntegrationTest) (k : nat)
    (t : T) (p : Proc) :
  simulateFailure (flags p) = true →
  (k < length (operations m))%nat →
  (∀ j, (j < k)%nat →
        Qlt_bool (Float32 (draws p + j)) (failureRate m) = false) →
  Qlt_bool (Float32 (draws p + k)) (failureRate m) = true →
  fails_at Float32 m k t p.
Proof.
  intros Hsf Hk Hno Hhit.
  destruct (lookup_lt_is_Some_2 (operations m) k Hk) as [op Hop].
  exists (take k (operations m)), op, (drop (S k) (operations m)).
  assert (Hlen : length (take k (operations m)) = k)
    by (rewrite length_take; lia).
  split; [by rewrite <- (take_drop_middle _ _ _ Hop) at 1|]. split; [done|].
  rewrite Run_unfold. cbv zeta.
  assert (Run_loop Float32 m 0 (operations m)
            (mkT (tname t) (output t ++ [start_line m]) (failed t)
                 (skipped t) (sub t), p)
          = (true,
             (mkT (tname t)
                  ((output t ++ [start_line m])
                     ++ steps_log m (verbose (flags p)) 0
                          (take k (operations m))
                     ++ (if verbose (flags p) then [step_line m k op] else [])
                     ++ [failed_line op])
                  true (skipped t) (sub t),
              after_steps m (S k) p))) as ->.
  { rewrite <- (take_drop_middle _ _ _ Hop) at 1.
    rewrite Run_loop_prefix by (intros _ j Hj; apply Hno; lia).
    rewrite Hlen. rewrite Run_loop_hit.
    - cbn [tname output failed skipped sub]. rewrite after_steps_add.
      replace (flags (after_steps m k p)) with (flags p) by done.
      rewrite <- !app_assoc. by replace (k + 1)%nat with (S k) by lia.
    - done.
    - rewrite <- Hhit. f_equal. f_equal. destruct p as [fl env d e].
      simpl in *. by rewrite Hsf. }
  cbn [fst snd]. by rewrite <- !app_assoc.
Qed.

(** X18.  With failure simulation off a scenario passes with all its
    steps taken, whatever its failure rate and the generator, and without
    reading the generator. *)
Theorem Run_without_simulation (m : MockIntegrationTest) (t : T) (p : Proc) :
  simulateFailure (flags p) = false →
  passes Float32 m t p.
Proof.
  intros Hsf. unfold passes. rewrite Run_unfold. cbv zeta.
  rewrite Run_loop_pass_when.
  - unfold t_Log, modify. cbn [fst snd tname output failed skipped sub].
    by rewrite <- !app_assoc.
  - rewrite Hsf. done.
Qed.

(** X19.  Every run of a scenario either passes with all its steps taken
    or fails at one of its steps; there is no other outcome. *)
Theorem Run_outcome (m : MockIntegrationTest) (t : T) (p : Proc) :
  passes Float32 m t p ∨
  ∃ k, (k < length (operations m))%nat ∧ fails_at Float32 m k t p.
Proof.
  unfold passes, fails_at. rewrite Run_unfold. cbv zeta.
  destruct (Run_loop_outcome m (operations m) 0
              (mkT (tname t) (output t ++ [start_line m]) (failed t)
                   (skipped t) (sub t)) p)
    as [-> | (pre & op & post & Hops & ->)].
  - left. unfold t_Log, modify. cbn [fst snd tname output failed skipped sub].
    by rewrite <- !app_assoc.
  - right. exists (length pre). split.
    { rewrite Hops, length_app. simpl. lia. }
    exists pre, op, post. split; [done|]. split; [done|].
    cbn [fst snd tname output failed skipped sub]. by rewrite <- !app_assoc.
Qed.

(** X20.  A run never sleeps longer than the scenario's duration, never
    makes more draws than the scenario has steps, never turns the clock
    back, and leaves the flags and the environment alone. *)
Theorem Run_cost (m : MockIntegrationTest) (t : T) (p : Proc) :
  let p' := (Run Float32 m (t, p)).2.2 in
  elapsed p <= elapsed p' <= elapsed p + Z.max 0 (duration m) ∧
  (draws p ≤ draws p' ≤ draws p + length (operations m))%nat ∧
  flags p' = flags p ∧ environ p' = environ p.
Proof.
  intros p'. subst p'.
  assert (Hstep : ∀ k, (k ≤ length (operations m))%nat →
    0 <= Z.of_nat k * Z.max 0 (step_time m) <= Z.max 0 (duration m)).
  { intros k Hk. unfold step_time.
    set (n := Z.of_nat (length (operations m))).
    destruct (decide (n = 0)) as [Hn|Hn]; [assert (k = 0%nat) as -> by lia; lia|].
    assert (0 < n) by lia.
    destruct (decide (duration m <= 0)) as [Hneg|Hpos].
    - assert (0 <= (- duration m) ÷ n) by (apply Z.quot_pos; lia).
      rewrite Z.quot_opp_l in * by lia. nia.
    - assert (0 <= duration m ÷ n) by (apply Z.quot_pos; lia).
      assert (n * (duration m ÷ n) <= duration m)
        by (apply Z.mul_quot_le; lia).
      nia. }
  rewrite Run_unfold. cbv zeta.
  destruct (Run_loop_outcome m (operations m) 0
              (mkT (tname t) (output t ++ [start_line m]) (failed t)
                   (skipped t) (sub t)) p)
    as [-> | (pre & op & post & Hops & ->)].
  - unfold t_Log, modify.
    cbn [fst snd after_steps flags environ draws elapsed].
    specialize (Hstep _ (Nat.le_refl _)).
    repeat split; try done; try lia; destruct (simulateFailure _); lia.
  - cbn [fst snd after_steps flags environ draws elapsed].
    assert (S (length pre) ≤ length (operations m))%nat as Hk
      by (rewrite Hops, length_app; simpl; lia).
    specialize (Hstep _ Hk).
    repeat split; try done; try lia; destruct (simulateFailure _); lia.
Qed.

End ScenarioExtras.

(** * Further properties of the category tests and the suite *)

Section OrchestratorExtras.

Import Tests.

Variable Float32 : nat → Q.

(** X21.  Subtests do not stop at a failure: whatever the bodies do,
    every entry of the list is run, in order, on a fresh [testing.T]
    named after the parent and the entry, and from the process state its
    predecessor left; the finished subtests are recorded in that order
    after the earlier ones, and the parent ends marked failed exactly
    when it was already or one of these subtests failed.  The parent's
    name, log and skip mark are untouched. *)
Theorem run_subtests_all_run (tests : list (string * M unit)) (t : T)
    (p : Proc) :
  let r := children_of (tname t) tests p in
  run_subtests tests (t, p) =
    (tt,
     (mkT (tname t) (output t) (failed t || existsb failed r.1) (skipped t)
          (sub t ++ r.1),
      r.2)) ∧
  length r.1 = length tests.
Proof.
  revert t p. induction tests as [|[n f] rest IH]; intros t p r; subst r.
  - simpl. rewrite app_nil_r, orb_false_r. by destruct t.
  - cbn [run_subtests children_of]. unfold bind, t_Run. cbv zeta.
    destruct (f _) as [[] [c p']]. cbn [fst snd].
    match goal with |- context [run_subtests rest (?t1, _)] =>
      destruct (IH t1 p') as [-> Hlen] end.
    cbn [tname output failed skipped sub fst snd existsb length] in *.
    split; [|by rewrite Hlen].
    by rewrite <- app_assoc, orb_assoc.
Qed.

(** A category test run on a fresh [testing.T] executes all its scenarios
    or none, by its flag, and keeps the configuration. *)
Lemma category_test_selected on skip_msg var dflt header tests n p :
  Forall (λ nf, keeps_config nf.2) tests →
  let out :=
    category_test Float32 on skip_msg var dflt header tests (fresh n, p) in
  tname <$> sub out.2.1
    = (if on (flags p) then subtest_name n <$> tests else []) ∧
  flags out.2.2 = flags p ∧ environ out.2.2 = environ p.
Proof.
  intros Hk out. subst out. destruct (on (flags p)) eqn:Hon.
  - destruct (category_test_on Float32 on skip_msg var dflt header tests
                (fresh n) p Hk Hon) as (_ & H2 & H3 & H4).
    by rewrite H2, H3, H4.
  - by rewrite category_test_off.
Qed.

(** X22.  The scenarios a run executes are fixed by the three category
    flags as they stand when the run starts: the scenarios of each
    category whose flag is set, in the order storage, database, api.
    Neither the generator, nor the failures it injects, nor the verbosity,
    nor the environment changes which scenarios run. *)
Theorem flags_select_scenarios (s d a f v : bool)
    (env : gmap string string) :
  executed (go_test Float32 (category_flags s d a f v) env)
    = ((if s then storage_scenarios else [])
       ++ (if d then database_scenarios else [])
       ++ (if a then api_scenarios else []))%list.
Proof.
  unfold go_test, package_tests. cbn [run_tests].
  set (p0 := Build_Proc _ _ _ _).
  rewrite TestStorageIntegration_shape.
  pose proof (category_test_selected runStorageTests
    "Storage tests not enabled (use -storage flag)" "STORAGE_TYPE" "mock-s3"
    (λ ty, "Running storage integration tests (type: " +:+ ty +:+ ")")
    (storage_tests Float32) "TestStorageIntegration" p0
    (storage_tests_keep_config Float32)) as H1.
  cbv zeta in H1. fold (fresh "TestStorageIntegration").
  destruct (category_test _ _ _ _ _ _ _ _) as [[] [t1 p1]].
  destruct H1 as (Hs1 & Hf1 & _). cbn [fst snd] in Hs1, Hf1.
  rewrite TestDatabaseIntegration_shape.
  pose proof (category_test_selected runDBTests
    "Database tests not enabled (use -database flag)" "DB_TYPE"
    "mock-postgres"
    (λ ty, "Running database integration tests (type: " +:+ ty +:+ ")")
    (database_tests Float32) "TestDatabaseIntegration" p1
    (database_tests_keep_config Float32)) as H2.
  cbv zeta in H2. rewrite Hf1 in H2. fold (fresh "TestDatabaseIntegration").
  destruct (category_test _ _ _ _ _ _ _ _) as [[] [t2 p2]].
  destruct H2 as (Hs2 & Hf2 & _). cbn [fst snd] in Hs2, Hf2.
  rewrite TestAPIIntegration_shape.
  pose proof (category_test_selected runAPITests
    "API tests not enabled (use -api flag)" "API_TYPE" "mock-rest"
    (λ ty, "Running API integration tests (type: " +:+ ty +:+ ")")
    (api_tests Float32) "TestAPIIntegration" p2
    (api_tests_keep_config Float32)) as H3.
  cbv zeta in H3. rewrite Hf2 in H3. fold (fresh "TestAPIIntegration").
  destruct (category_test _ _ _ _ _ _ _ _) as [[] [t3 p3]].
  destruct H3 as (Hs3 & _). cbn [fst snd] in Hs3.
  pose proof (TestIntegrationSuite_sub (fresh "TestIntegrationSuite") p3)
    as H4.
  fold (fresh "TestIntegrationSuite").
  destruct (TestIntegrationSuite _) as [[] [t4 p4]].
  cbn [fst snd] in H4.
  unfold executed. cbn [fst]. simpl mbind.
  rewrite Hs1, Hs2, Hs3, H4. subst p0. cbn [flags category_flags
    runStorageTests runDBTests runAPITests].
  by destruct s, d, a.
Qed.

Lemma none_failedb_true ts : none_failedb ts = true → none_failed ts.
Proof.
  unfold none_failedb, none_failed. rewrite forallb_forall, Forall_forall.
  intros H t Ht. apply list_elem_of_In, H in Ht.
  apply andb_prop in Ht as [Hf Hsub]. apply negb_true_iff in Hf.
  split; [done|]. rewrite Forall_forall. intros c Hc.
  rewrite forallb_forall in Hsub. apply list_elem_of_In, Hsub in Hc.
  by apply negb_true_iff in Hc.
Qed.

(** X23.  Without the [-fail] flag no test and no scenario is marked
    failed and the generator is never read, whatever the other flags and
    the environment. *)
Theorem no_failure_without_fail_flag (s d a v : bool)
    (env : gmap string string) :
  none_failed (go_test Float32 (category_flags s d a false v) env).1 ∧
  draws (go_test Float32 (category_flags s d a false v) env).2 = 0%nat.
Proof.
  split; [apply none_failedb_true|];
    destruct s, d, a, v; vm_compute; reflexivity.
Qed.

(** X24.  [TestIntegrationSuite] never fails, is never skipped, runs no
    subtest, and touches neither the generator, the clock, the
    environment nor the [-fail] and [-v] flags.  It never clears a
    category flag, it leaves the flags alone when one was set, it always
    leaves at least one set, and running it again changes nothing. *)
Theorem TestIntegrationSuite_effect (t : T) (p : Proc) :
  let out := (TestIntegrationSuite (t, p)).2 in
  let on fl := runStorageTests fl || runDBTests fl || runAPITests fl in
  (failed out.1 = failed t ∧ skipped out.1 = skipped t ∧
   sub out.1 = sub t ∧ tname out.1 = tname t) ∧
  (draws out.2 = draws p ∧ elapsed out.2 = elapsed p ∧
   environ out.2 = environ p ∧
   simulateFailure (flags out.2) = simulateFailure (flags p) ∧
   verbose (flags out.2) = verbose (flags p)) ∧
  on (flags out.2) = true ∧
  flags out.2 = (if on (flags p) then flags p
                 else category_flags true true true
                        (simulateFailure (flags p)) (verbose (flags p))) ∧
  flags (TestIntegrationSuite (out.1, out.2)).2.2 = flags out.2.
Proof. by destruct t, p as [[[] [] [] f v] env n e]. Qed.

(** X25.  A category test whose flag is not set is skipped and does
    nothing else: it logs its skip message and leaves the flags, the
    generator and the clock as they were; this holds for each of the
    three category tests. *)
Theorem category_tests_skip_cleanly (t : T) (p : Proc) :
  (runStorageTests (flags p) = true ∨
   TestStorageIntegration Float32 (t, p)
     = skipped_with "Storage tests not enabled (use -storage flag)" t p) ∧
  (runDBTests (flags p) = true ∨
   TestDatabaseIntegration Float32 (t, p)
     = skipped_with "Database tests not enabled (use -database flag)" t p) ∧
  (runAPITests (flags p) = true ∨
   TestAPIIntegration Float32 (t, p)
     = skipped_with "API tests not enabled (use -api flag)" t p).
Proof.
  rewrite TestStorageIntegration_shape, TestDatabaseIntegration_shape,
    TestAPIIntegration_shape.
  repeat split.
  - destruct (runStorageTests (flags p)) eqn:E; [by left | right].
    by rewrite category_test_off.
  - destruct (runDBTests (flags p)) eqn:E; [by left | right].
    by rewrite category_test_off.
  - destruct (runAPITests (flags p)) eqn:E; [by left | right].
    by rewrite category_test_off.
Qed.

(** X26.  A type variable that is set to the empty string counts as not
    set: whenever [os.Getenv] yields the empty string for the three
    variables, the main program labels its services ["mock"] and the
    enabled category tests log their own defaults. *)
Theorem empty_type_is_default (t : T) (p : Proc) :
  Main.os_Getenv (environ p) "STORAGE_TYPE" = "" →
  Main.os_Getenv (environ p) "DB_TYPE" = "" →
  Main.os_Getenv (environ p) "API_TYPE" = "" →
  runStorageTests (flags p) = true →
  runDBTests (flags p) = true →
  runAPITests (flags p) = true →
  labels Float32 t p ["mock"; "mock"; "mock"]
    "mock-s3" "mock-postgres" "mock-rest".
Proof.
  unfold Main.os_Getenv, labels. intros Hs Hd Ha Hfs Hfd Hfa.
  split; [|split; [|split]].
  - unfold Main.LoadServiceConfig, Main.label, Main.os_Getenv. simpl.
    by rewrite Hs, Hd, Ha.
  - rewrite TestStorageIntegration_shape.
    destruct (category_test_on Float32 runStorageTests
      "Storage tests not enabled (use -storage flag)" "STORAGE_TYPE"
      "mock-s3"
      (λ ty, "Running storage integration tests (type: " +:+ ty +:+ ")")
      (storage_tests Float32) t p
      (storage_tests_keep_config Float32) Hfs) as (H & _).
    rewrite H, Hs. reflexivity.
  - rewrite TestDatabaseIntegration_shape.
    destruct (category_test_on Float32 runDBTests
      "Database tests not enabled (use -database flag)" "DB_TYPE"
      "mock-postgres"
      (λ ty, "Running database integration tests (type: " +:+ ty +:+ ")")
      (database_tests Float32) t p
      (database_tests_keep_config Float32) Hfd) as (H & _).
    rewrite H, Hd. reflexivity.
  - rewrite TestAPIIntegration_shape.
    destruct (category_test_on Float32 runAPITests
      "API tests not enabled (use -api flag)" "API_TYPE" "mock-rest"
      (λ ty, "Running API integration tests (type: " +:+ ty +:+ ")")
      (api_tests Float32) t p
      (api_tests_keep_config Float32) Hfa) as (H & _).
    rewrite H, Ha. reflexivity.
Qed.


End OrchestratorExtras.

(** * The further properties at concrete inputs *)

Lemma get_after_successful_put_witness :
  let Float32 := λ _ : nat, (1 # 2)%Q in
  let m := Main.NewMockService "Database" 50000000 (5368709 # 268435456) in
  let r := {| Main.draws := 0; Main.elapsed := 0; Main.stdout := [] |} in
  (Main.GetData Float32 "k" (Main.PutData Float32 "k" "v" (m, r)).2).1
    = ("v", None) ∨
  (Main.GetData Float32 "k" (Main.PutData Float32 "k" "v" (m, r)).2).1
    = ("", Some ("failed to get data from " +:+ Main.name m)).
Proof.
  intros Float32 m r.
  apply (get_after_successful_put Float32 m r "k" "v"). reflexivity.
Defined.

Lemma PutData_other_keys_witness :
  let Float32 := λ _ : nat, (1 # 2)%Q in
  let s := (Main.NewMockService "Database" 50000000 0,
            {| Main.draws := 0; Main.elapsed := 0; Main.stdout := [] |}) in
  Main.data (Main.PutData Float32 "a" "1" s).2.1 !! "b" = Main.data s.1 !! "b".
Proof.
  intros Float32 s. apply (PutData_other_keys Float32 s "a" "1" "b").
  discriminate.
Defined.

Lemma PutData_overwrites_witness :
  let Float32 := λ _ : nat, (1 # 2)%Q in
  let s := (Main.NewMockService "Database" 50000000 0,
            {| Main.draws := 0; Main.elapsed := 0; Main.stdout := [] |}) in
  let s2 := Main.PutData Float32 "a" "2" (Main.PutData Float32 "a" "1" s).2 in
  Main.data s2.2.1 !! "a" = Some "2" ∧
  Main.data s2.2.1 = <["a" := "2"]> (Main.data s.1).
Proof.
  intros Float32 s. apply (PutData_overwrites Float32 s "a" "1" "2").
  reflexivity.
Defined.

Lemma GetData_absent_key_witness :
  let Float32 := λ _ : nat, (1 # 2)%Q in
  let m := Main.NewMockService "External API" 200000000 0 in
  let r := {| Main.draws := 0; Main.elapsed := 0; Main.stdout := [] |} in
  (Main.GetData Float32 "missing" (m, r)).1.1 = "" ∧
  (Main.GetData Float32 "missing" (m, r)).1.2 ≠ None.
Proof.
  intros Float32 m r. apply (GetData_absent_key Float32 m r "missing").
  reflexivity.
Defined.

Lemma ListKeys_lists_the_store_witness :
  let Float32 := λ _ : nat, (1 # 2)%Q in
  let range_keys := λ d : gmap string string, (map_to_list d).*1 in
  let m :=
    {| Main.name := "Database"; Main.responseTime := 50000000;
       Main.failureRate := 0; Main.data := {[ "a" := "1" ]} |} in
  let r := {| Main.draws := 0; Main.elapsed := 0; Main.stdout := [] |} in
  let out := (Main.ListKeys Float32 range_keys (m, r)).1 in
  (out.2 = None ∧
   NoDup out.1 ∧ (∀ k, k ∈ out.1 ↔ is_Some (Main.data m !! k)) ∧
   length out.1 = size (Main.data m)) ∨
  (out.2 = Some ("failed to list keys from " +:+ Main.name m) ∧ out.1 = []).
Proof.
  intros Float32 range_keys m r.
  apply (ListKeys_lists_the_store Float32 range_keys m r).
  intros d. reflexivity.
Defined.

Lemma nonpositive_rate_never_fails_witness :
  let Float32 := λ _ : nat, (1 # 2)%Q in
  let range_keys := λ d : gmap string string, (map_to_list d).*1 in
  let svc := Main.NewMockService "Database" 50000000 (-1 # 4) in
  let r := {| Main.draws := 0; Main.elapsed := 0; Main.stdout := [] |} in
  no_call_fails Float32 range_keys svc r "k" "v".
Proof.
  intros Float32 range_keys svc r.
  apply (nonpositive_rate_never_fails Float32 range_keys svc r "k" "v").
  - intros n. split; [discriminate | reflexivity].
  - discriminate.
Defined.

Lemma rate_at_least_one_always_fails_witness :
  let Float32 := λ _ : nat, (1 # 2)%Q in
  let range_keys := λ d : gmap string string, (map_to_list d).*1 in
  let svc := Main.NewMockService "Database" 50000000 (3 # 2) in
  let r := {| Main.draws := 0; Main.elapsed := 0; Main.stdout := [] |} in
  all_calls_fail Float32 range_keys svc r "k" "v".
Proof.
  intros Float32 range_keys svc r.
  apply (rate_at_least_one_always_fails Float32 range_keys svc r "k" "v").
  - intros n. split; [discriminate | reflexivity].
  - discriminate.
Defined.

Lemma test_service_succeeds_witness :
  let Float32 := λ _ : nat, (1 # 2)%Q in
  let range_keys := λ d : gmap string string, (map_to_list d).*1 in
  let cfg :=
    {| Main.Name := "Database"; Main.Type_ := "";
       Main.ResponseTime := 50000000;
       Main.FailureRate := (5368709 # 268435456)%Q |} in
  let svc := Main.NewMockService "Database" 50000000 (5368709 # 268435456) in
  let r := {| Main.draws := 0; Main.elapsed := 0; Main.stdout := [] |} in
  Program.test_service Float32 range_keys cfg 1700000000 (svc, r) =
    (None,
     (with_test_data cfg 1700000000 svc,
      later 5 (iteration_budget svc)
        [ LF +:+ "Testing " +:+ Main.Name cfg +:+ ":" +:+ LF;
          "✓ Connected to " +:+ Main.name svc +:+ LF;
          "  ✓ Ping successful" +:+ LF;
          "  ✓ Data stored successfully" +:+ LF;
          "  ✓ Data retrieved successfully" +:+ LF;
          "  ✓ Listed 1 keys" +:+ LF ] r)).
Proof.
  intros Float32 range_keys cfg svc r.
  apply (test_service_succeeds Float32 range_keys cfg 1700000000 svc r).
  - intros d. reflexivity.
  - intros j _. reflexivity.
  - reflexivity.
Defined.

Lemma main_all_pass_witness :
  let Float32 := λ _ : nat, (1 # 2)%Q in
  let range_keys := λ d : gmap string string, (map_to_list d).*1 in
  let Unix := λ _ : nat, 1700000000 in
  let r := {| Main.draws := 0; Main.elapsed := 0; Main.stdout := [] |} in
  let out := Program.main Float32 range_keys Unix ∅ r in
  out.1.2 = [] ∧
  Main.draws out.2 = (Main.draws r + 15)%nat ∧
  Main.elapsed out.2 = Main.elapsed r + 1575 * Main.Millisecond ∧
  Main.data <$> out.1.1 =
    [ {[ Program.testKey (Unix 0%nat) := "test-value-S3-like Storage" ]};
      {[ Program.testKey (Unix 1%nat) := "test-value-Database" ]};
      {[ Program.testKey (Unix 2%nat) := "test-value-External API" ]} ].
Proof.
  intros Float32 range_keys Unix r.
  apply (main_all_pass Float32 range_keys Unix ∅ r).
  intros n. discriminate.
Defined.

(** A generator whose third draw alone is below every configured rate. *)
Lemma Run_fails_at_first_hit_witness :
  let Float32 := λ n : nat, if (n =? 2)%nat then 0%Q else (1 # 2)%Q in
  let m :=
    Tests.set_operations
      (Tests.NewMockIntegrationTest "Storage Upload" 500000000
         Tests.f0_05)
      [ "Connecting to storage service"; "Generating test file";
        "Uploading file"; "Verifying upload"; "Checking file integrity" ] in
  let p :=
    {| Tests.flags := category_flags true false false true true;
       Tests.environ := ∅; Tests.draws := 0; Tests.elapsed := 0 |} in
  fails_at Float32 m 2 (fresh "TestStorageIntegration/Upload") p.
Proof.
  intros Float32 m p.
  apply (Run_fails_at_first_hit Float32 m 2
           (fresh "TestStorageIntegration/Upload") p).
  - reflexivity.
  - simpl. lia.
  - intros [|[|j]] Hj; [reflexivity | reflexivity | lia].
  - reflexivity.
Defined.

Lemma Run_without_simulation_witness :
  let Float32 := λ _ : nat, 0%Q in
  let m :=
    Tests.set_operations
      (Tests.NewMockIntegrationTest "API GET" 300000000 1)
      [ "Making GET request"; "Parsing response"; "Validating data" ] in
  let p :=
    {| Tests.flags := category_flags false false true false true;
       Tests.environ := ∅; Tests.draws := 0; Tests.elapsed := 0 |} in
  passes Float32 m (fresh "TestAPIIntegration/GET") p.
Proof.
  intros Float32 m p.
  apply (Run_without_simulation Float32 m (fresh "TestAPIIntegration/GET") p).
  reflexivity.
Defined.

Lemma empty_type_is_default_witness :
  let Float32 := λ _ : nat, (1 # 2)%Q in
  let p :=
    {| Tests.flags := category_flags true true true false false;
       Tests.environ :=
         {[ "STORAGE_TYPE" := ""; "DB_TYPE" := ""; "API_TYPE" := "" ]};
       Tests.draws := 0; Tests.elapsed := 0 |} in
  labels Float32 (fresh "Test") p ["mock"; "mock"; "mock"]
    "mock-s3" "mock-postgres" "mock-rest".
Proof.
  intros Float32 p.
  apply (empty_type_is_default Float32 (fresh "Test") p); reflexivity.
Defined.

